(** * The model loader of [llava/model/builder.py]

    A shallow embedding of [load_pretrained_model] and of the table
    [CLIP_T5_BASE_MODELS], followed by the properties of the loader's
    dispatch, of its keyword bundle and of its post-load steps.

    The loader is glue around the [transformers], [torch], [peft] and
    [huggingface_hub] libraries.  Their calls are kept as events answered by
    an arbitrary environment (the type [World] below); what the loader itself
    computes - the substring tests on the model name, the keyword bundle, the
    key renaming of the side weights, the order of the calls, the exceptions
    it raises itself - is translated line by line. *)

From Stdlib Require Import ZArith String Ascii List Bool Lia.
From stdpp Require Import base option list strings gmap.

Local Open Scope string_scope.

(** ** Python strings

    Strings are byte strings.  [lower] folds the ASCII capitals, which is
    what [str.lower] does on the ASCII part of a name; the other bytes are
    kept. *)
Module PyStr.

Definition lower_ascii (c : ascii) : ascii :=
  let n := nat_of_ascii c in
  if (65 <=? n)%nat && (n <=? 90)%nat then ascii_of_nat (n + 32) else c.

(** [s.lower()] *)
Fixpoint lower (s : string) : string :=
  match s with
  | EmptyString => EmptyString
  | String c s' => String (lower_ascii c) (lower s')
  end.

(** [s.startswith(p)] *)
Fixpoint startswith (p s : string) : bool :=
  match p, s with
  | EmptyString, _ => true
  | String _ _, EmptyString => false
  | String a p', String b s' => if Ascii.eqb a b then startswith p' s' else false
  end.

(** [sub in s] *)
Fixpoint contains (sub s : string) : bool :=
  startswith sub s ||
  match s with
  | EmptyString => false
  | String _ s' => contains sub s'
  end.

(** [s[n:]] *)
Fixpoint slice_from (n : nat) (s : string) : string :=
  match n, s with
  | O, _ => s
  | S _, EmptyString => EmptyString
  | S n', String _ s' => slice_from n' s'
  end.

(** [s.endswith(p)], by comparing the tail of [s] of the length of [p]. *)
Definition endswith (p s : string) : bool :=
  (String.length p <=? String.length s)%nat &&
  String.eqb (slice_from (String.length s - String.length p) s) p.

(** [os.path.join(a, b)] of [posixpath], for two components. *)
Definition path_join (a b : string) : string :=
  if startswith "/" b then b
  else if String.eqb a "" || endswith "/" a then a +:+ b
  else a +:+ "/" +:+ b.

End PyStr.

Import PyStr.

(** ** The values the loader handles *)

(** [torch.float16] and [torch.bfloat16] *)
Inductive dtype := float16 | bfloat16.

Global Instance dtype_eq_dec : EqDecision dtype.
Proof. solve_decision. Defined.

(** [transformers.BitsAndBytesConfig], with the four fields the loader
    sets. *)
Record BitsAndBytesConfig := {
  load_in_4bit : bool;
  bnb_4bit_compute_dtype : dtype;
  bnb_4bit_use_double_quant : bool;
  bnb_4bit_quant_type : string
}.

(** A value stored in the keyword bundle [kwargs]. *)
Inductive kwval :=
| KwStr (s : string)
| KwBool (b : bool)
| KwDtype (d : dtype)
| KwQuant (c : BitsAndBytesConfig).

(** The bundle [kwargs], a dict with string keys. *)
Abbreviation Kwargs := (gmap string kwval).

(** [use_t5], line 39. *)
Definition use_t5_of (model_name : string) : bool :=
  contains "clip-t5" (lower model_name) || contains "clip-flant5" (lower model_name).

(** [dtype], line 40. *)
Definition dtype_of (use_t5 : bool) : dtype :=
  if use_t5 then bfloat16 else float16.

(** Lines 38 and 42-53: the keyword bundle. *)
Definition build_kwargs (load_8bit load_4bit : bool) (device_map : string)
    (dt : dtype) : Kwargs :=
  let kwargs : Kwargs := {[ "device_map" := KwStr device_map ]} in
  if load_8bit then
    <[ "load_in_8bit" := KwBool true ]> kwargs
  else if load_4bit then
    let kwargs := <[ "load_in_4bit" := KwBool true ]> kwargs in
    <[ "quantization_config" :=
         KwQuant {| load_in_4bit := true;
                    bnb_4bit_compute_dtype := dt;
                    bnb_4bit_use_double_quant := true;
                    bnb_4bit_quant_type := "nf4" |} ]> kwargs
  else
    <[ "torch_dtype" := KwDtype dt ]> kwargs.

(** ** Library objects

    Only the attributes the loader reads or writes are kept. *)

(** A pretrained configuration; [max_sequence_length] is [None] when the
    attribute is absent ([hasattr] is false). *)
Record Config := {
  config_source : string;
  max_sequence_length : option Z
}.

(** A tokenizer; [vocab_len] is [len(tokenizer)]. *)
Record Tokenizer := {
  tokenizer_source : string;
  is_fast : bool;
  vocab_len : Z
}.

Record ImageProcessor := { image_processor_source : string }.

Record VisionTower := {
  is_loaded : bool;
  image_processor : option ImageProcessor
}.

Record Projector := { projector_placed : option (dtype * string) }.

(** A linear layer: its declared sizes and the shape of its weight. *)
Record Linear := {
  out_features : Z;
  in_features : Z;
  weight_shape : Z * Z
}.

Record Tensor := { tensor_id : nat; tensor_dtype : dtype }.

(** [v.to(dtype)] on a tensor *)
Definition tensor_to (dt : dtype) (v : Tensor) : Tensor :=
  {| tensor_id := tensor_id v; tensor_dtype := dt |}.

Record Model := {
  config : Config;
  lm_head : Linear;
  embed_tokens_weight : Z * Z;
  vision_tower : option VisionTower;
  mm_projector : option Projector
}.

Definition set_lm_head_weight (m : Model) (shape : Z * Z) : Model :=
  {| config := config m;
     lm_head := {| out_features := out_features (lm_head m);
                   in_features := in_features (lm_head m);
                   weight_shape := shape |};
     embed_tokens_weight := embed_tokens_weight m;
     vision_tower := vision_tower m;
     mm_projector := mm_projector m |}.

Definition set_embed_tokens_weight (m : Model) (shape : Z * Z) : Model :=
  {| config := config m;
     lm_head := lm_head m;
     embed_tokens_weight := shape;
     vision_tower := vision_tower m;
     mm_projector := mm_projector m |}.

Definition set_towers (m : Model) (vt : VisionTower) (p : Projector) : Model :=
  {| config := config m;
     lm_head := lm_head m;
     embed_tokens_weight := embed_tokens_weight m;
     vision_tower := Some vt;
     mm_projector := Some p |}.

(** The effect of [model.resize_token_embeddings(n)] on the row count of the
    token-embedding table: the table gets [n] rows, its width is kept. *)
Definition resized (m : Model) (n : Z) : Model :=
  set_embed_tokens_weight m (n, snd (embed_tokens_weight m)).

(** Row count of the token-embedding table. *)
Definition embedding_rows (m : Model) : Z := fst (embed_tokens_weight m).

(** ** Python dicts with string keys

    Items are kept in insertion order, one per key, as [dict] keeps them;
    the order decides which value survives when a comprehension sends two
    keys to the same new key. *)
Module PyDict.

Definition dict (V : Type) := list (string * V).

(** [d[k] = v] *)
Fixpoint setitem {V} (k : string) (v : V) (d : dict V) : dict V :=
  match d with
  | [] => [(k, v)]
  | (k', v') :: d' =>
      if String.eqb k' k then (k', v) :: d' else (k', v') :: setitem k v d'
  end.

Definition keys {V} (d : dict V) : list string := map fst d.

(** [{fk(k): fv(v) for k, v in d.items()}] *)
Definition comprehension {V W} (fk : string -> string) (fv : V -> W)
    (d : dict V) : dict W :=
  fold_left (fun acc kv => setitem (fk (fst kv)) (fv (snd kv)) acc) d [].

End PyDict.

Abbreviation StateDict := (PyDict.dict Tensor).

(** ** The table [CLIP_T5_BASE_MODELS], lines 26-35 *)

Record Entry := {
  base : string;
  model : string;
  load_projector_only : bool
}.

Definition table_items : list (string * Entry) :=
  [
    ("clip-flant5-xxl",
      {| base := "google/flan-t5-xxl"; model := "zhiqiulin/clip-flant5-xxl";
         load_projector_only := false |});
    ("clip-flant5-xxl-stage-1",
      {| base := "google/flan-t5-xxl"; model := "zhiqiulin/clip-flant5-xxl-stage-1";
         load_projector_only := true |});
    ("clip-flant5-xxl-no-split-text",
      {| base := "google/flan-t5-xxl"; model := "zhiqiulin/clip-flant5-xxl-no-split-text";
         load_projector_only := false |});
    ("clip-flant5-xxl-stage-1-no-split-text",
      {| base := "google/flan-t5-xxl";
         model := "zhiqiulin/clip-flant5-xxl-stage-1-no-split-text";
         load_projector_only := true |});
    ("clip-flant5-xl",
      {| base := "google/flan-t5-xl"; model := "zhiqiulin/clip-flant5-xl";
         load_projector_only := false |});
    ("clip-flant5-xl-stage-1",
      {| base := "google/flan-t5-xl"; model := "zhiqiulin/clip-flant5-xl-stage-1";
         load_projector_only := true |});
    ("clip-t5-xxl",
      {| base := "t5-11b"; model := "zhiqiulin/clip-t5-xxl";
         load_projector_only := false |});
    ("clip-t5-xxl-stage-1",
      {| base := "t5-11b"; model := "zhiqiulin/clip-t5-xxl-stage-1";
         load_projector_only := true |})
  ].

Definition CLIP_T5_BASE_MODELS : gmap string Entry := list_to_map table_items.

(** ** Effects: exceptions, library calls, the environment *)

Inductive exn :=
| NotImplementedError
| KeyError (key : string)
| UnboundLocalError (name : string)
| AttributeError (attribute : string)
| TypeError (what : string)
| LibraryError (what : string).

(** [UnboundLocalError] is a subclass of [NameError]. *)
Definition is_NameError (e : exn) : bool :=
  match e with UnboundLocalError _ => true | _ => false end.

Inductive outcome (A : Type) :=
| Returned (a : A)
| Raised (e : exn).

Arguments Returned {A} a.
Arguments Raised {A} e.

(** The calls into the libraries and the operating system, indexed by the
    type of what they return.  A call on an object that the library changes
    in place ([load_state_dict], [to], [load_model]) returns the object as it
    is after the call. *)
Inductive Call : Type -> Type :=
| AutoConfig_from_pretrained (path : string) (trust_remote_code : bool) : Call Config
| AutoTokenizer_from_pretrained (path : string) (use_fast : bool) : Call Tokenizer
| T5TokenizerFast_from_pretrained (path truncation_side padding_side : string) :
    Call Tokenizer
| LlavaLlamaForCausalLM_from_pretrained (path : string) (low_cpu_mem_usage : bool)
    (cfg : option Config) (kwargs : Kwargs) : Call Model
| LlavaMPTForCausalLM_from_pretrained (path : string) (low_cpu_mem_usage : bool)
    (cfg : option Config) (kwargs : Kwargs) : Call Model
| CLIPT5ForConditionalGeneration_from_pretrained (path : string) (delay_load : bool)
    (torch_dtype : dtype) : Call Model
| os_path_exists (path : string) : Call bool
| os_path_isfile (path : string) : Call bool
| os_path_expanduser (path : string) : Call string
| os_environ_get (name : string) : Call (option string)
| shutil_copyfile (src dst : string) : Call unit
| torch_load (path map_location : string) : Call StateDict
| import_from (module name : string) : Call unit
| hf_hub_download (repo_id filename : string) (subfolder local_dir : option string) :
    Call string
| PeftModel_from_pretrained (m : Model) (path : string) : Call Model
| merge_and_unload (m : Model) : Call Model
| load_state_dict (m : Model) (state : StateDict) (strict : bool) : Call Model
| model_to (m : Model) (dt : dtype) (device : string) : Call Model
| resize_token_embeddings (m : Model) (n : Z) : Call unit
| vision_tower_load_model (vt : VisionTower) : Call VisionTower
| vision_tower_to (vt : VisionTower) (device : string) (dt : dtype) : Call VisionTower
| mm_projector_to (p : Projector) (dt : dtype) (device : string) : Call Projector.

(** What an invocation does that its caller or its environment can see. *)
Inductive event :=
| Warned (message : string)
| Printed (message : string)
| Called {X : Type} (c : Call X) (r : outcome X).

(** The environment answers a call from the call and from what happened
    before it. *)
Definition World := forall X : Type, list event -> Call X -> outcome X.

(** The state of one invocation: whether the function's local name
    [hf_hub_download] is bound (it is a local of [load_pretrained_model],
    because line 74 imports it inside the function), and the events so far,
    newest first. *)
Record frame := {
  hf_hub_download_bound : bool;
  log : list event
}.

Definition frame0 : frame := {| hf_hub_download_bound := false; log := [] |}.

(** The events of a frame, oldest first. *)
Definition trace (st : frame) : list event := rev (log st).

Definition M (A : Type) : Type := World -> frame -> outcome A * frame.

Definition ret {A} (a : A) : M A := fun _ st => (Returned a, st).

Definition raise {A} (e : exn) : M A := fun _ st => (Raised e, st).

Definition bind {A B} (c : M A) (k : A -> M B) : M B :=
  fun w st =>
    match c w st with
    | (Returned a, st') => k a w st'
    | (Raised e, st') => (Raised e, st')
    end.

Definition emit (e : event) : M unit :=
  fun _ st =>
    (Returned tt,
     {| hf_hub_download_bound := hf_hub_download_bound st; log := e :: log st |}).

(** [warnings.warn(msg)], under the default filters: the message is shown
    and the call returns. *)
Definition warn (msg : string) : M unit := emit (Warned msg).

(** [print(msg)] *)
Definition print (msg : string) : M unit := emit (Printed msg).

(** A library call: the environment answers, the call and its answer are
    logged, an exception propagates. *)
Definition call {X} (c : Call X) : M X :=
  fun w st =>
    let r := w X (log st) c in
    (r, {| hf_hub_download_bound := hf_hub_download_bound st;
           log := Called c r :: log st |}).

(** [from huggingface_hub import hf_hub_download], line 74: the import
    runs, then the local name is bound. *)
Definition bind_hf_hub_download : M unit :=
  fun _ st => (Returned tt, {| hf_hub_download_bound := true; log := log st |}).

Definition import_hf_hub_download : M unit :=
  bind (call (import_from "huggingface_hub" "hf_hub_download"))
       (fun _ => bind_hf_hub_download).

(** Reading the local name [hf_hub_download]. *)
Definition read_hf_hub_download : M unit :=
  fun _ st =>
    if hf_hub_download_bound st then (Returned tt, st)
    else (Raised (UnboundLocalError "hf_hub_download"), st).

Notation "x <- c ;; k" := (bind c (fun x => k))
  (at level 100, c at next level, right associativity).
Notation "c ;; k" := (bind c (fun _ => k))
  (at level 100, right associativity).

(** One invocation from a fresh frame. *)
Definition run {A} (w : World) (c : M A) : outcome A * frame := c w frame0.

Definition result {A} (r : outcome A * frame) : outcome A := fst r.

Definition events {A} (r : outcome A * frame) : list event := trace (snd r).

(** ** [load_pretrained_model], lines 37-188 *)

(** The message of lines 58 and 120. *)
Definition lora_warning : string :=
  "There is `lora` in model name but no `model_base` is provided. If you are loading a LoRA model, please provide the `model_base` argument. Detailed instruction: https://github.com/haotian-liu/LLaVA#launch-a-model-worker-lora-weights-unmerged.".

(** Lines 75-80, the nested function; [hf_hub_download] is a free name of
    it, read from the enclosing invocation. *)
Definition load_from_hf (repo_id filename : string) (subfolder : option string) :
    M StateDict :=
  read_hf_hub_download ;;
  cache_file <- call (hf_hub_download repo_id filename subfolder None) ;;
  call (torch_load cache_file "cpu").

(** Line 82: [k[11:] if k.startswith('base_model.') else k] *)
Definition strip_base_model (k : string) : string :=
  if startswith "base_model." k then slice_from 11 k else k.

(** Line 84: [k[6:] if k.startswith('model.') else k] *)
Definition strip_model (k : string) : string :=
  if startswith "model." k then slice_from 6 k else k.

(** Lines 82-84: the renaming of the side weights. *)
Definition rename_non_lora_trainables (non_lora_trainables : StateDict) : StateDict :=
  let non_lora_trainables :=
    PyDict.comprehension strip_base_model id non_lora_trainables in
  if existsb (startswith "model.model.") (PyDict.keys non_lora_trainables) then
    PyDict.comprehension strip_model id non_lora_trainables
  else non_lora_trainables.

(** Lines 64-67: the weights of the output projection and of the token
    embedding are allocated anew when the rows of the former are not
    [out_features]. *)
Definition realloc_lm_head (m : Model) : Model :=
  let token_num := out_features (lm_head m) in
  let tokem_dim := in_features (lm_head m) in
  if negb (fst (weight_shape (lm_head m)) =? token_num)%Z then
    set_embed_tokens_weight
      (set_lm_head_weight m (token_num, tokem_dim)) (token_num, tokem_dim)
  else m.

(** Lines 60-92: adapter weights merged onto a base model. *)
Definition llava_lora (model_path model_base : string) (kwargs : Kwargs) :
    M (Tokenizer * Model) :=
  lora_cfg_pretrained <- call (AutoConfig_from_pretrained model_path false) ;;
  tokenizer <- call (AutoTokenizer_from_pretrained model_base false) ;;
  print "Loading LLaVA from base model..." ;;
  m <- call (LlavaLlamaForCausalLM_from_pretrained model_base true
               (Some lora_cfg_pretrained) kwargs) ;;
  let m := realloc_lm_head m in
  print "Loading additional LLaVA weights..." ;;
  local <- call (os_path_exists (path_join model_path "non_lora_trainables.bin")) ;;
  non_lora_trainables <-
    (if local : bool then
       call (torch_load (path_join model_path "non_lora_trainables.bin") "cpu")
     else
       import_hf_hub_download ;;
       load_from_hf model_path "non_lora_trainables.bin" None) ;;
  let non_lora_trainables := rename_non_lora_trainables non_lora_trainables in
  m <- call (load_state_dict m non_lora_trainables false) ;;
  call (import_from "peft" "PeftModel") ;;
  print "Loading LoRA weights..." ;;
  m <- call (PeftModel_from_pretrained m model_path) ;;
  print "Merging LoRA weights..." ;;
  m <- call (merge_and_unload m) ;;
  print "Model is loaded..." ;;
  ret (tokenizer, m).

(** Lines 94-109: a projector loaded onto a base language model. *)
Definition llava_projector (model_path model_base model_name : string)
    (kwargs : Kwargs) (dt : dtype) : M (Tokenizer * Model) :=
  print "Loading LLaVA from base model..." ;;
  tm <-
    (if contains "mpt" (lower model_name) then
       present <- call (os_path_isfile (path_join model_path "configuration_mpt.py")) ;;
       (if present : bool then ret tt
        else call (shutil_copyfile (path_join model_base "configuration_mpt.py")
                                   (path_join model_path "configuration_mpt.py"))) ;;
       tokenizer <- call (AutoTokenizer_from_pretrained model_base true) ;;
       cfg_pretrained <- call (AutoConfig_from_pretrained model_path true) ;;
       m <- call (LlavaMPTForCausalLM_from_pretrained model_base true
                    (Some cfg_pretrained) kwargs) ;;
       ret (tokenizer, m)
     else
       tokenizer <- call (AutoTokenizer_from_pretrained model_base false) ;;
       cfg_pretrained <- call (AutoConfig_from_pretrained model_path false) ;;
       m <- call (LlavaLlamaForCausalLM_from_pretrained model_base true
                    (Some cfg_pretrained) kwargs) ;;
       ret (tokenizer, m)) ;;
  mm_projector_weights <- call (torch_load (path_join model_path "mm_projector.bin") "cpu") ;;
  let mm_projector_weights :=
    PyDict.comprehension id (tensor_to dt) mm_projector_weights in
  m <- call (load_state_dict (snd tm) mm_projector_weights false) ;;
  ret (fst tm, m).

(** Lines 111-116: a self-contained checkpoint. *)
Definition llava_self_contained (model_path model_name : string) (kwargs : Kwargs) :
    M (Tokenizer * Model) :=
  if contains "mpt" (lower model_name) then
    tokenizer <- call (AutoTokenizer_from_pretrained model_path true) ;;
    m <- call (LlavaMPTForCausalLM_from_pretrained model_path true None kwargs) ;;
    ret (tokenizer, m)
  else
    tokenizer <- call (AutoTokenizer_from_pretrained model_path false) ;;
    m <- call (LlavaLlamaForCausalLM_from_pretrained model_path true None kwargs) ;;
    ret (tokenizer, m).

(** Lines 56-116: the LLaVA branch. *)
Definition llava_branch (model_path : string) (model_base : option string)
    (model_name : string) (kwargs : Kwargs) (dt : dtype) : M (Tokenizer * Model) :=
  (if contains "lora" (lower model_name) && bool_decide (model_base = None)
   then warn lora_warning else ret tt) ;;
  match model_base with
  | Some model_base =>
      if contains "lora" (lower model_name)
      then llava_lora model_path model_base kwargs
      else llava_projector model_path model_base model_name kwargs dt
  | None => llava_self_contained model_path model_name kwargs
  end.

(** [CLIP_T5_BASE_MODELS[model_name]] *)
Definition table_getitem (model_name : string) : M Entry :=
  match CLIP_T5_BASE_MODELS !! model_name with
  | Some e => ret e
  | None => raise (KeyError model_name)
  end.

(** Lines 147-161: the projector of a stage-1 entry. *)
Definition clip_t5_projector (model_name : string) (e : Entry) (m : Model) : M Model :=
  hf_home <- call (os_environ_get "HF_HOME") ;;
  local_dir <-
    (if bool_decide (hf_home = None) then
       home <- call (os_path_expanduser "~") ;;
       ret (path_join home model_name)
     else
       hf_home <- call (os_environ_get "HF_HOME") ;;
       match hf_home with
       | Some hf_home => ret (path_join hf_home model_name)
       | None => raise (TypeError "os.path.join")
       end) ;;
  print ("Downloading projector weights to " +:+ local_dir) ;;
  read_hf_hub_download ;;
  call (hf_hub_download (model e) "mm_projector.bin" None (Some local_dir)) ;;
  mm_projector_weights <- call (torch_load (path_join local_dir "mm_projector.bin") "cpu") ;;
  let mm_projector_weights :=
    PyDict.comprehension id (tensor_to bfloat16) mm_projector_weights in
  call (load_state_dict m mm_projector_weights false).

(** Lines 118-161: the CLIP-T5 branch. *)
Definition clip_t5_branch (model_path : string) (model_base : option string)
    (model_name device : string) : M (Tokenizer * Model) :=
  (if contains "lora" (lower model_name) && bool_decide (model_base = None)
   then warn lora_warning else ret tt) ;;
  if contains "lora" (lower model_name) && negb (bool_decide (model_base = None)) then
    raise NotImplementedError
  else if negb (bool_decide (model_base = None)) then
    raise NotImplementedError
  else
    e <- table_getitem model_name ;;
    let load_model_path := if load_projector_only e then base e else model e in
    print ("Loading CLIP-FlanT5 from base model " +:+ model_name +:+ ": path is "
           +:+ load_model_path +:+ "...") ;;
    cfg_pretrained <- call (AutoConfig_from_pretrained model_path false) ;;
    tokenizer <- call (T5TokenizerFast_from_pretrained (base e) "right" "right") ;;
    m <- call (CLIPT5ForConditionalGeneration_from_pretrained load_model_path false
                 bfloat16) ;;
    m <- call (model_to m bfloat16 device) ;;
    m <- (if load_projector_only e then clip_t5_projector model_name e m else ret m) ;;
    ret (tokenizer, m).

(** Lines 165-188: the steps after loading, and the returned tuple. *)
Definition finalizer (tokenizer : Tokenizer) (m : Model) (device : string)
    (dt : dtype) (use_t5 : bool) :
    M (Tokenizer * Model * option ImageProcessor * Z * bool) :=
  call (resize_token_embeddings m (vocab_len tokenizer)) ;;
  let m := resized m (vocab_len tokenizer) in
  match vision_tower m with
  | None => raise (AttributeError "is_loaded")
  | Some vt =>
      vt <- (if negb (is_loaded vt) then call (vision_tower_load_model vt) else ret vt) ;;
      vt <- call (vision_tower_to vt device dt) ;;
      match mm_projector m with
      | None => raise (AttributeError "mm_projector")
      | Some p =>
          p <- call (mm_projector_to p dt device) ;;
          let m := set_towers m vt p in
          let image_processor := image_processor vt in
          let context_len :=
            match max_sequence_length (config m) with
            | Some n => n
            | None => 2048%Z
            end in
          ret (tokenizer, m, image_processor, context_len, use_t5)
      end
  end.

Definition load_pretrained_model (model_path : string) (model_base : option string)
    (model_name : string) (load_8bit load_4bit : bool) (device_map device : string) :
    M (Tokenizer * Model * option ImageProcessor * Z * bool) :=
  let use_t5 := use_t5_of model_name in
  let dt := dtype_of use_t5 in
  let kwargs := build_kwargs load_8bit load_4bit device_map dt in
  tm <-
    (if contains "llava" (lower model_name) then
       llava_branch model_path model_base model_name kwargs dt
     else if use_t5 then
       clip_t5_branch model_path model_base model_name device
     else raise NotImplementedError) ;;
  finalizer (fst tm) (snd tm) device dt use_t5.

(** ** Environments to run the loader in

    [sample_world] answers every call: checkpoints load, files are local or
    not as [local] says, [torch.load] gives [weights], and the loaded
    configuration has [max_sequence_length] as given. *)

Definition sample_model (msl : option Z) : Model :=
  {| config := {| config_source := "checkpoint"; max_sequence_length := msl |};
     lm_head := {| out_features := 32000%Z; in_features := 4096%Z;
                   weight_shape := (32000, 4096)%Z |};
     embed_tokens_weight := (32000, 4096)%Z;
     vision_tower := Some {| is_loaded := false; image_processor := None |};
     mm_projector := Some {| projector_placed := None |} |}.

Definition sample_world (msl : option Z) (local : bool) (weights : StateDict) : World :=
  fun X _ c =>
    match c in Call X return outcome X with
    | AutoConfig_from_pretrained path _ =>
        Returned {| config_source := path; max_sequence_length := msl |}
    | AutoTokenizer_from_pretrained path fast =>
        Returned {| tokenizer_source := path; is_fast := fast; vocab_len := 32001%Z |}
    | T5TokenizerFast_from_pretrained path _ _ =>
        Returned {| tokenizer_source := path; is_fast := true; vocab_len := 32100%Z |}
    | LlavaLlamaForCausalLM_from_pretrained _ _ _ _ => Returned (sample_model msl)
    | LlavaMPTForCausalLM_from_pretrained _ _ _ _ => Returned (sample_model msl)
    | CLIPT5ForConditionalGeneration_from_pretrained _ _ _ => Returned (sample_model msl)
    | os_path_exists _ => Returned local
    | os_path_isfile _ => Returned local
    | os_path_expanduser _ => Returned "/home/user"
    | os_environ_get _ => Returned None
    | shutil_copyfile _ _ => Returned tt
    | torch_load _ _ => Returned weights
    | import_from _ _ => Returned tt
    | hf_hub_download _ filename _ _ => Returned (path_join "/cache" filename)
    | PeftModel_from_pretrained m _ => Returned m
    | merge_and_unload m => Returned m
    | load_state_dict m _ _ => Returned m
    | model_to m _ _ => Returned m
    | resize_token_embeddings _ _ => Returned tt
    | vision_tower_load_model _ =>
        Returned {| is_loaded := true;
                    image_processor :=
                      Some {| image_processor_source := "openai/clip-vit-large-patch14" |} |}
    | vision_tower_to vt _ _ => Returned vt
    | mm_projector_to _ dt device => Returned {| projector_placed := Some (dt, device) |}
    end.

Definition sample_weights : StateDict :=
  [ ("base_model.model.model.mm_projector.weight",
       {| tensor_id := 1; tensor_dtype := float16 |});
    ("base_model.model.model.mm_projector.bias",
       {| tensor_id := 2; tensor_dtype := float16 |});
    ("model.lm_head.weight", {| tensor_id := 3; tensor_dtype := float16 |});
    ("lm_head.weight", {| tensor_id := 4; tensor_dtype := float16 |});
    ("note", {| tensor_id := 5; tensor_dtype := float16 |}) ].

(** ** What a run shows

    Observations on the events of a run, and the renaming of the side
    weights in the words of the specification. *)

(** What the CLIP-T5 path may do with the model: no LLaVA class is
    instantiated, the CLIP-T5 class is loaded with [delay_load=False] and
    [torch_dtype=bfloat16], and the model is moved as bfloat16 to [device].
    None of the other calls takes a keyword bundle. *)
Definition clip_t5_event (device : string) (e : event) : Prop :=
  match e with
  | Called c _ =>
      match c with
      | LlavaLlamaForCausalLM_from_pretrained _ _ _ _ => False
      | LlavaMPTForCausalLM_from_pretrained _ _ _ _ => False
      | CLIPT5ForConditionalGeneration_from_pretrained _ delay_load torch_dtype =>
          delay_load = false /\ torch_dtype = bfloat16
      | model_to _ dt dev => dt = bfloat16 /\ dev = device
      | _ => True
      end
  | _ => True
  end.

(** The renaming in the words of the specification: [strip_prefix p k] is the
    rest of [k] after the prefix [p], when [k] has that prefix. *)
Fixpoint strip_prefix (p k : string) : option string :=
  match p with
  | EmptyString => Some k
  | String a p' =>
      match k with
      | EmptyString => None
      | String b k' => if Ascii.eqb a b then strip_prefix p' k' else None
      end
  end.

(** [k] with the prefix [p] stripped if present, [k] itself otherwise. *)
Definition without_prefix (p k : string) : string :=
  default k (strip_prefix p k).

(** The nested prefix is detected when some key, once [base_model.] is
    stripped, starts with [model.model.]. *)
Definition nested_prefix_detected (d : StateDict) : bool :=
  existsb (fun k => startswith "model.model." (without_prefix "base_model." k))
          (PyDict.keys d).

(** A key after the renaming: [base_model.] stripped, then [model.] stripped
    as well when the nested prefix was detected. *)
Definition renamed_key (nested : bool) (k : string) : string :=
  let k := without_prefix "base_model." k in
  if nested then without_prefix "model." k else k.

(** The mapping given to a [load_state_dict] call, with its [strict] flag. *)
Definition merge_of (e : event) : option (StateDict * bool) :=
  match e with
  | Called c _ =>
      match c with
      | load_state_dict _ state strict => Some (state, strict)
      | _ => None
      end
  | _ => None
  end.

(** The mapping a [torch.load] call returned. *)
Definition loaded_state (e : event) : option StateDict :=
  match e with
  | @Called X c r =>
      match c in Call X return outcome X -> option StateDict with
      | torch_load _ _ =>
          fun r => match r with Returned d => Some d | Raised _ => None end
      | _ => fun _ => None
      end r
  | _ => None
  end.

(** [next] is the event right after [ev] in the trace [t]. *)
Definition adjacent (t : list event) (ev next : event) : Prop :=
  exists before after, t = (before ++ ev :: next :: after)%list.

(** ** What every run keeps to

    The steps a run may take, each against the events before it (newest
    first).  [step_allowed] is read off the loader statement by statement;
    the flags are the substring tests on the model name, [entry] is the
    lookup of the name in the table, [kwargs] the keyword bundle. *)

(** The exception of a library call that raised. *)
Definition raised_by (ev : event) : option exn :=
  match ev with
  | Called _ (Raised e) => Some e
  | _ => None
  end.

(** The exception of the newest event, when that is a call that raised. *)
Definition last_raised (hist : list event) : option exn :=
  match hist with
  | ev :: _ => raised_by ev
  | [] => None
  end.

(** The newest event. *)
Definition previous (hist : list event) : option event :=
  match hist with
  | ev :: _ => Some ev
  | [] => None
  end.

(** The exceptions the loader raises by itself: lines 122, 124 and 163, the
    table lookup of line 126, the unbound name of line 154, and the
    attribute and type errors of Python on a missing tower or a missing
    environment value. *)
Definition own_exception (model_name : string) (e : exn) : Prop :=
  match e with
  | NotImplementedError => True
  | KeyError key => key = model_name
  | UnboundLocalError name => name = "hf_hub_download"
  | AttributeError _ => True
  | TypeError _ => True
  | LibraryError _ => False
  end.

(** Every event of a log is allowed after the events before it. *)
Fixpoint log_ok (step : list event -> event -> Prop) (l : list event) : Prop :=
  match l with
  | [] => True
  | ev :: hist => step hist ev /\ log_ok step hist
  end.

Section Allowed.
Variables (model_path : string) (model_base : option string).
Variables (llava lora mpt use_t5 : bool) (entry : option Entry).
Variables (kwargs : Kwargs) (device : string).

Definition call_allowed {X} (hist : list event) (c : Call X) : Prop :=
  match c with
  | AutoConfig_from_pretrained path trust_remote_code =>
      path = model_path /\ (trust_remote_code = true -> mpt = true)
  | AutoTokenizer_from_pretrained path use_fast =>
      llava = true /\ path = default model_path model_base /\
      (use_fast = true <-> mpt = true /\ (lora = true -> model_base = None))
  | T5TokenizerFast_from_pretrained path truncation_side padding_side =>
      llava = false /\ model_base = None /\
      truncation_side = "right" /\ padding_side = "right" /\
      exists e, entry = Some e /\ path = base e
  | LlavaLlamaForCausalLM_from_pretrained path low_cpu_mem_usage cfg kw =>
      llava = true /\ path = default model_path model_base /\
      low_cpu_mem_usage = true /\ kw = kwargs /\
      (cfg = None <-> model_base = None) /\
      (mpt = true -> lora = true /\ model_base <> None)
  | LlavaMPTForCausalLM_from_pretrained path low_cpu_mem_usage cfg kw =>
      llava = true /\ path = default model_path model_base /\
      low_cpu_mem_usage = true /\ kw = kwargs /\
      (cfg = None <-> model_base = None) /\ mpt = true
  | CLIPT5ForConditionalGeneration_from_pretrained path delay_load torch_dtype =>
      llava = false /\ model_base = None /\
      delay_load = false /\ torch_dtype = bfloat16 /\
      exists e, entry = Some e /\
                path = (if load_projector_only e then base e else model e)
  | os_path_exists path =>
      lora = true /\ path = path_join model_path "non_lora_trainables.bin"
  | os_path_isfile path =>
      mpt = true /\ path = path_join model_path "configuration_mpt.py"
  | os_path_expanduser _ => llava = false
  | os_environ_get name => llava = false /\ name = "HF_HOME"
  | shutil_copyfile src dst =>
      dst = path_join model_path "configuration_mpt.py" /\
      previous hist = Some (Called (os_path_isfile dst) (Returned false)) /\
      exists b, model_base = Some b /\ src = path_join b "configuration_mpt.py"
  | torch_load path map_location =>
      llava = true /\ model_base <> None /\ map_location = "cpu" /\
      if lora then
        path = path_join model_path "non_lora_trainables.bin" \/
        exists repo_id filename subfolder local_dir,
          previous hist
          = Some (Called (hf_hub_download repo_id filename subfolder local_dir)
                         (Returned path))
      else path = path_join model_path "mm_projector.bin"
  | import_from _ _ => llava = true /\ lora = true /\ model_base <> None
  | hf_hub_download repo_id filename subfolder local_dir =>
      repo_id = model_path /\ filename = "non_lora_trainables.bin" /\
      subfolder = None /\ local_dir = None /\
      exists imported rest,
        hist = Called (import_from "huggingface_hub" "hf_hub_download")
                      (Returned imported)
               :: Called (os_path_exists
                            (path_join model_path "non_lora_trainables.bin"))
                         (Returned false)
               :: rest
  | PeftModel_from_pretrained _ path => lora = true /\ path = model_path
  | merge_and_unload _ => lora = true /\ model_base <> None
  | load_state_dict _ state strict =>
      llava = true /\ model_base <> None /\ strict = false /\
      exists path loaded,
        previous hist = Some (Called (torch_load path "cpu") (Returned loaded)) /\
        state = (if lora then rename_non_lora_trainables loaded
                 else PyDict.comprehension id (tensor_to (dtype_of use_t5)) loaded)
  | model_to _ dt dev => llava = false /\ dt = bfloat16 /\ dev = device
  | resize_token_embeddings _ _ => True
  | vision_tower_load_model vt => is_loaded vt = false
  | vision_tower_to _ dev dt => dev = device /\ dt = dtype_of use_t5
  | mm_projector_to _ dt dev => dev = device /\ dt = dtype_of use_t5
  end.

Definition step_allowed (hist : list event) (ev : event) : Prop :=
  last_raised hist = None /\
  match ev with
  | Warned message =>
      message = lora_warning /\ hist = [] /\ lora = true /\ model_base = None
  | Printed _ => True
  | Called c _ => call_allowed hist c
  end.

End Allowed.

(** A log that may go on: its steps were allowed and its newest event is
    not a call that raised. *)
Definition good (step : list event -> event -> Prop) (l : list event) : Prop :=
  log_ok step l /\ last_raised l = None.

(** A finished run: its steps were allowed; an exception of the run is the
    exception of its last call or one of the loader's own; a last call that
    raised gave the run its exception. *)
Definition final_ok {A} (step : list event -> event -> Prop) (model_name : string)
    (r : outcome A * frame) : Prop :=
  log_ok step (log (snd r)) /\
  (forall e, fst r = Raised e ->
             last_raised (log (snd r)) = Some e \/ own_exception model_name e) /\
  (forall e, last_raised (log (snd r)) = Some e -> fst r = Raised e).

(** * Properties *)

(** ** The table *)

(** The keys of the table are CLIP-T5 names: none contains [llava] or [lora],
    and [use_t5] holds of each. *)
Lemma table_key_markers (model_name : string) (e : Entry) :
  CLIP_T5_BASE_MODELS !! model_name = Some e ->
  contains "llava" (lower model_name) = false /\
  contains "lora" (lower model_name) = false /\
  use_t5_of model_name = true.
Proof.
  intros H. apply elem_of_list_to_map_2 in H. unfold table_items in H.
  repeat (apply elem_of_cons in H as [H | H];
          [injection H as -> ->; vm_compute; auto |]).
  by apply elem_of_nil in H.
Qed.

Lemma lora_name_not_in_table (model_name : string) :
  contains "lora" (lower model_name) = true ->
  CLIP_T5_BASE_MODELS !! model_name = None.
Proof.
  intros H. destruct (CLIP_T5_BASE_MODELS !! model_name) as [e |] eqn:E; [| done].
  apply table_key_markers in E as (_ & E & _). congruence.
Qed.

(** ** The keyword bundle *)

(** C1, as stated, fails: with both flags set the bundle has the 8-bit flag
    and neither the 4-bit flag nor a quantization configuration. *)
Lemma C1_both_flags_give_8bit :
  build_kwargs true true "auto" float16 !! "quantization_config" = None /\
  build_kwargs true true "auto" float16 !! "load_in_4bit" = None /\
  build_kwargs true true "auto" float16 !! "load_in_8bit" = Some (KwBool true).
Proof. vm_compute. auto. Qed.

(** C1, amended: the 8-bit flag is tested first.  With [load_8bit] set the
    bundle is the device map and the 8-bit flag, whatever [load_4bit] is;
    with [load_8bit] unset and [load_4bit] set it holds the 4-bit flag and a
    quantization configuration with double quantization, quant type [nf4]
    and the chosen compute dtype, and no 8-bit flag. *)
Theorem C1_kwargs_8bit_first (load_4bit : bool) (device_map : string) (dt : dtype) :
  (build_kwargs true load_4bit device_map dt
     = <[ "load_in_8bit" := KwBool true ]> {[ "device_map" := KwStr device_map ]} /\
   forall k, is_Some (build_kwargs true load_4bit device_map dt !! k) <->
             k = "device_map" \/ k = "load_in_8bit") /\
  (build_kwargs false true device_map dt !! "quantization_config"
     = Some (KwQuant {| load_in_4bit := true;
                        bnb_4bit_compute_dtype := dt;
                        bnb_4bit_use_double_quant := true;
                        bnb_4bit_quant_type := "nf4" |}) /\
   build_kwargs false true device_map dt !! "load_in_4bit" = Some (KwBool true) /\
   build_kwargs false true device_map dt !! "device_map" = Some (KwStr device_map) /\
   build_kwargs false true device_map dt !! "load_in_8bit" = None).
Proof.
  split.
  - split; [reflexivity |]. intros k. cbn [build_kwargs].
    rewrite lookup_insert. case_decide as Hk.
    + subst k. split; [auto | eauto].
    + rewrite lookup_singleton. case_decide as Hk'.
      * subst k. split; [auto | eauto].
      * split; [intros [? ?]; discriminate | intros [-> | ->]; congruence].
  - cbn [build_kwargs]. repeat split; by simplify_map_eq.
Qed.

(** ** Dispatch on the model name *)

(** C2, as stated, fails: a CLIP-T5 name with [lora] and no [model_base]
    gets the warning and then a [KeyError] from the table, not a
    [NotImplementedError]. *)
Lemma C2_lora_without_base_is_KeyError :
  let r := run (sample_world None true [])
             (load_pretrained_model "ckpt" None "clip-t5-lora" false false "auto" "cuda") in
  use_t5_of "clip-t5-lora" = true /\
  contains "lora" (lower "clip-t5-lora") = true /\
  result r = Raised (KeyError "clip-t5-lora") /\
  result r <> Raised NotImplementedError /\
  events r = [Warned lora_warning].
Proof. vm_compute. repeat split; congruence. Qed.

(** C2, amended: for a name with a CLIP-T5 marker and [lora] and without
    [llava], a supplied [model_base] gives [NotImplementedError] at once,
    before any call or output; without [model_base] the warning is emitted
    and the table lookup raises [KeyError].  The invocation fails either
    way. *)
Theorem C2_clip_t5_lora_fails (w : World) (model_path : string)
    (model_base : option string) (model_name : string) (load_8bit load_4bit : bool)
    (device_map device : string) :
  use_t5_of model_name = true ->
  contains "llava" (lower model_name) = false ->
  contains "lora" (lower model_name) = true ->
  let r := run w (load_pretrained_model model_path model_base model_name
                    load_8bit load_4bit device_map device) in
  (model_base <> None -> result r = Raised NotImplementedError /\ events r = []) /\
  (model_base = None ->
     result r = Raised (KeyError model_name) /\ events r = [Warned lora_warning]) /\
  (forall v, result r <> Returned v).
Proof.
  intros Ht5 Hllava Hlora r. subst r.
  unfold load_pretrained_model, run, clip_t5_branch, table_getitem.
  rewrite Ht5, Hllava, Hlora, (lora_name_not_in_table _ Hlora).
  destruct model_base as [b |]; cbn; repeat split; congruence.
Qed.

Lemma C2_clip_t5_lora_fails_witness :
  let r := run (sample_world None true [])
             (load_pretrained_model "ckpt" (Some "google/flan-t5-xl") "CLIP-FlanT5-xl-LoRA"
                false false "auto" "cuda") in
  result r = Raised NotImplementedError /\ events r = [].
Proof.
  refine (proj1 (C2_clip_t5_lora_fails (sample_world None true []) "ckpt"
                   (Some "google/flan-t5-xl") "CLIP-FlanT5-xl-LoRA" false false
                   "auto" "cuda" _ _ _) _);
    [vm_compute; reflexivity .. | discriminate].
Defined.

(** C3: a name with none of the markers [llava], [clip-t5], [clip-flant5]
    (and so not in the table) gets [NotImplementedError], before any call or
    output. *)
Theorem C3_unknown_family_unimplemented (w : World) (model_path : string)
    (model_base : option string) (model_name : string) (load_8bit load_4bit : bool)
    (device_map device : string) :
  contains "llava" (lower model_name) = false ->
  contains "clip-t5" (lower model_name) = false ->
  contains "clip-flant5" (lower model_name) = false ->
  CLIP_T5_BASE_MODELS !! model_name = None ->
  let r := run w (load_pretrained_model model_path model_base model_name
                    load_8bit load_4bit device_map device) in
  result r = Raised NotImplementedError /\ events r = [].
Proof.
  intros Hllava Ht5 Hflan _ r. subst r.
  unfold load_pretrained_model, run, use_t5_of.
  rewrite Hllava, Ht5, Hflan. cbn. auto.
Qed.

Lemma C3_unknown_family_unimplemented_witness :
  let r := run (sample_world None true [])
             (load_pretrained_model "ckpt" None "vicuna-7b-v1.5" true false "auto" "cuda") in
  result r = Raised NotImplementedError /\ events r = [].
Proof.
  apply (C3_unknown_family_unimplemented (sample_world None true []) "ckpt" None
           "vicuna-7b-v1.5" true false "auto" "cuda"); vm_compute; reflexivity.
Defined.

(** C4, as stated, fails: the [llava] test comes first, so a name with both
    [llava] and a CLIP-T5 marker and with a [model_base] takes the LLaVA
    projector path, which returns when the library calls succeed. *)
Lemma C4_llava_marker_wins :
  let r := run (sample_world None true [])
             (load_pretrained_model "ckpt" (Some "base") "llava-clip-t5-xl"
                false false "auto" "cuda") in
  use_t5_of "llava-clip-t5-xl" = true /\
  contains "lora" (lower "llava-clip-t5-xl") = false /\
  result r <> Raised NotImplementedError /\
  exists v, result r = Returned v.
Proof. vm_compute. repeat split; [congruence | eauto]. Qed.

(** C4, amended: for a name with a CLIP-T5 marker, without [llava] and
    without [lora], a supplied [model_base] gives [NotImplementedError],
    before any call or output. *)
Theorem C4_clip_t5_with_base_unimplemented (w : World) (model_path model_base : string)
    (model_name : string) (load_8bit load_4bit : bool) (device_map device : string) :
  use_t5_of model_name = true ->
  contains "llava" (lower model_name) = false ->
  contains "lora" (lower model_name) = false ->
  let r := run w (load_pretrained_model model_path (Some model_base) model_name
                    load_8bit load_4bit device_map device) in
  result r = Raised NotImplementedError /\ events r = [].
Proof.
  intros Ht5 Hllava Hlora r. subst r.
  unfold load_pretrained_model, run, clip_t5_branch.
  rewrite Ht5, Hllava, Hlora. cbn. auto.
Qed.

Lemma C4_clip_t5_with_base_unimplemented_witness :
  let r := run (sample_world None true [])
             (load_pretrained_model "ckpt" (Some "google/flan-t5-xxl") "clip-flant5-xxl"
                false false "auto" "cuda") in
  result r = Raised NotImplementedError /\ events r = [].
Proof.
  apply (C4_clip_t5_with_base_unimplemented (sample_world None true []) "ckpt"
           "google/flan-t5-xxl" "clip-flant5-xxl" false false "auto" "cuda");
    vm_compute; reflexivity.
Defined.

(** ** Runs *)

(** A run that returns through a [bind] returned from both parts. *)
Lemma bind_returned {A B} (c : M A) (k : A -> M B) (w : World) (st st' : frame) (b : B) :
  bind c k w st = (Returned b, st') ->
  exists a st1, c w st = (Returned a, st1) /\ k a w st1 = (Returned b, st').
Proof.
  unfold bind. destruct (c w st) as [[a | e] st1]; [eauto | discriminate].
Qed.

(** Case analysis on the next answer of the environment in [H]. *)
Ltac ask_world_in H :=
  match type of H with
  | context [?f ?X ?l ?c] =>
      match goal with w : World |- _ => constr_eq f w end;
      let E := fresh "E" in destruct (f X l c) eqn:E
  end.

(** ** The steps after loading *)

(** What [finalizer] returns, when it returns: the tokenizer it was given;
    the model it was given with the embedding table resized and the two
    towers placed; the context length read off the model's configuration. *)
Lemma finalizer_returned (tokenizer : Tokenizer) (m : Model) (device : string)
    (dt : dtype) (use_t5 : bool) (w : World) (st st' : frame)
    (v : Tokenizer * Model * option ImageProcessor * Z * bool) :
  finalizer tokenizer m device dt use_t5 w st = (Returned v, st') ->
  (exists vt p,
     v = (tokenizer, set_towers (resized m (vocab_len tokenizer)) vt p,
          image_processor vt,
          match max_sequence_length (config m) with Some n => n | None => 2048%Z end,
          use_t5)) /\
  In (Called (resize_token_embeddings m (vocab_len tokenizer)) (Returned tt)) (log st').
Proof.
  unfold finalizer, bind, call, ret, raise. cbn. intros H.
  destruct (w unit (log st) (resize_token_embeddings m (vocab_len tokenizer)))
    as [[] | e] eqn:E0; [| discriminate].
  destruct (vision_tower m) as [vt |]; [| discriminate].
  destruct (mm_projector m) as [p |].
  - destruct (is_loaded vt); cbn in H;
      repeat (ask_world_in H; cbn in H; try discriminate);
      injection H as <- <-; (split; [eauto | cbn; auto 10]).
  - destruct (is_loaded vt); cbn in H;
      repeat (ask_world_in H; cbn in H; try discriminate).
Qed.

(** C5: when an invocation returns, the returned model's embedding table has
    as many rows as the returned tokenizer has tokens, and the run resized
    a model to that size. *)
Theorem C5_embedding_rows_match_tokenizer (w : World) (model_path : string)
    (model_base : option string) (model_name : string) (load_8bit load_4bit : bool)
    (device_map device : string)
    (tokenizer : Tokenizer) (m : Model) (ip : option ImageProcessor)
    (context_len : Z) (use_t5 : bool) :
  let r := run w (load_pretrained_model model_path model_base model_name
                    load_8bit load_4bit device_map device) in
  result r = Returned (tokenizer, m, ip, context_len, use_t5) ->
  embedding_rows m = vocab_len tokenizer /\
  exists m0,
    In (Called (resize_token_embeddings m0 (vocab_len tokenizer)) (Returned tt))
       (events r).
Proof.
  intros r H. subst r. unfold result, events, trace in *.
  destruct (run w _) as [o st'] eqn:R. cbn in H. subst o.
  unfold run, load_pretrained_model in R.
  apply bind_returned in R as ([tok0 m0] & st1 & _ & R).
  apply finalizer_returned in R as [(vt & p & R) Hin]. cbn in R.
  injection R as -> -> _ _ _. split; [reflexivity |].
  exists m0. apply in_rev in Hin. exact Hin.
Qed.

(** The witness is a self-contained LLaVA checkpoint, loaded without a base
    model: 32001 tokens, a table that had 32000 rows when loaded. *)
Lemma C5_embedding_rows_match_tokenizer_witness :
  exists tokenizer m ip context_len use_t5,
    result (run (sample_world None true [])
              (load_pretrained_model "liuhaotian/llava-v1.5-7b" None "llava-v1.5-7b"
                 false false "auto" "cuda"))
      = Returned (tokenizer, m, ip, context_len, use_t5) /\
    embedding_rows m = 32001%Z /\ vocab_len tokenizer = 32001%Z.
Proof.
  eexists _, _, _, _, _.
  split; [vm_compute; reflexivity |].
  split; [| vm_compute; reflexivity].
  etransitivity;
    [ eapply (C5_embedding_rows_match_tokenizer (sample_world None true [])
                "liuhaotian/llava-v1.5-7b" None "llava-v1.5-7b" false false "auto" "cuda");
      vm_compute; reflexivity
    | vm_compute; reflexivity ].
Defined.

(** C8: when an invocation returns, the context length is the
    [max_sequence_length] of the returned model's configuration if it has
    one, and 2048 otherwise. *)
Theorem C8_context_len (w : World) (model_path : string)
    (model_base : option string) (model_name : string) (load_8bit load_4bit : bool)
    (device_map device : string)
    (tokenizer : Tokenizer) (m : Model) (ip : option ImageProcessor)
    (context_len : Z) (use_t5 : bool) :
  result (run w (load_pretrained_model model_path model_base model_name
                   load_8bit load_4bit device_map device))
    = Returned (tokenizer, m, ip, context_len, use_t5) ->
  (max_sequence_length (config m) = None -> context_len = 2048%Z) /\
  (forall n, max_sequence_length (config m) = Some n -> context_len = n).
Proof.
  intros H. unfold result in H.
  destruct (run w _) as [o st'] eqn:R. cbn in H. subst o.
  unfold run, load_pretrained_model in R.
  apply bind_returned in R as ([tok0 m0] & st1 & _ & R).
  apply finalizer_returned in R as [(vt & p & R) _]. cbn in R.
  injection R as _ -> _ -> _. cbn.
  split; [intros -> | intros n ->]; reflexivity.
Qed.

Lemma C8_context_len_witness :
  (exists tokenizer m ip context_len use_t5,
     result (run (sample_world None true [])
               (load_pretrained_model "ckpt" None "llava-v1.5-7b" false false "auto" "cuda"))
       = Returned (tokenizer, m, ip, context_len, use_t5) /\
     max_sequence_length (config m) = None /\ context_len = 2048%Z) /\
  (exists tokenizer m ip context_len use_t5,
     result (run (sample_world (Some 4096%Z) true [])
               (load_pretrained_model "ckpt" None "clip-flant5-xl" false false "auto" "cuda"))
       = Returned (tokenizer, m, ip, context_len, use_t5) /\
     max_sequence_length (config m) = Some 4096%Z /\ context_len = 4096%Z).
Proof.
  split.
  - eexists _, _, _, _, _.
    split; [vm_compute; reflexivity |]. split; [vm_compute; reflexivity |].
    refine (proj1 (C8_context_len (sample_world None true []) "ckpt" None
                     "llava-v1.5-7b" false false "auto" "cuda" _ _ _ _ _ _) _);
      vm_compute; reflexivity.
  - eexists _, _, _, _, _.
    split; [vm_compute; reflexivity |]. split; [vm_compute; reflexivity |].
    refine (proj2 (C8_context_len (sample_world (Some 4096%Z) true []) "ckpt" None
                     "clip-flant5-xl" false false "auto" "cuda" _ _ _ _ _ _) _ _);
      vm_compute; reflexivity.
Defined.

(** ** Running the loader step by step

    The equations of the monad at a frame, used to run the loader one
    statement at a time against an arbitrary environment. *)
Section Equations.
Context (w : World) (b : bool) (l : list event).

Let st : frame := {| hf_hub_download_bound := b; log := l |}.

Lemma exec_assoc {A B C} (c : M A) (k : A -> M B) (k' : B -> M C) (s : frame) :
  bind (bind c k) k' w s = bind c (fun a => bind (k a) k') w s.
Proof. unfold bind. by destruct (c w s) as [[a | e] s']. Qed.

Lemma exec_ret {A B} (a : A) (k : A -> M B) (s : frame) :
  bind (ret a) k w s = k a w s.
Proof. reflexivity. Qed.

Lemma exec_raise {A B} (e : exn) (k : A -> M B) (s : frame) :
  bind (raise e) k w s = (Raised e, s).
Proof. reflexivity. Qed.

Lemma exec_emit {B} (e : event) (k : unit -> M B) :
  bind (emit e) k w st = k tt w {| hf_hub_download_bound := b; log := e :: l |}.
Proof. reflexivity. Qed.

Lemma exec_call {X B} (c : Call X) (k : X -> M B) :
  bind (call c) k w st =
  match w X l c with
  | Returned a =>
      k a w {| hf_hub_download_bound := b; log := Called c (Returned a) :: l |}
  | Raised e =>
      (Raised e, {| hf_hub_download_bound := b; log := Called c (Raised e) :: l |})
  end.
Proof. unfold bind, call. cbn. by destruct (w X l c). Qed.

Lemma exec_bind_name {B} (k : unit -> M B) :
  bind bind_hf_hub_download k w st = k tt w {| hf_hub_download_bound := true; log := l |}.
Proof. reflexivity. Qed.

Lemma exec_read_name {B} (k : unit -> M B) :
  bind read_hf_hub_download k w st =
  if b then k tt w st else (Raised (UnboundLocalError "hf_hub_download"), st).
Proof. unfold bind, read_hf_hub_download. cbn. by destruct b. Qed.
End Equations.

Ltac unfold_loader :=
  unfold load_pretrained_model, llava_branch, llava_lora, llava_projector,
    llava_self_contained, clip_t5_branch, clip_t5_projector, table_getitem,
    finalizer, load_from_hf, import_hf_hub_download, warn, print,
    run, frame0, result, events, trace.

(** One statement of a run: the statement at the head of the program is
    run; a library call splits the run by its answer, a test on an unknown
    by its outcome. *)
Ltac exec_test x :=
  first
    [ match goal with H : x = _ |- _ => rewrite H end
    | match x with
      | negb ?y => destruct y
      | bool_decide (?y = None) => destruct y
      | _ => destruct x
      end ].

Ltac exec_answer :=
  match goal with
  | |- context [match ?f ?X ?h ?c with Returned _ => _ | Raised _ => _ end] =>
      destruct (f X h c)
  end.

Ltac exec_simpl :=
  repeat match goal with
    | |- context [bool_decide (@None ?A = None)] =>
        change (bool_decide (@None A = None)) with true
    | |- context [bool_decide (Some ?x = None)] =>
        change (bool_decide (Some x = None)) with false
    end;
  cbv beta iota zeta delta [andb orb negb].

Ltac exec_step :=
  match goal with
  | |- context [@bind ?A ?B ?c ?k ?w ?s] =>
      lazymatch c with
      | bind ?c1 ?k1 => rewrite (exec_assoc w c1 k1 k s)
      | ret ?a => rewrite (exec_ret w a k s)
      | raise ?e => rewrite (exec_raise w e k s)
      | emit _ => rewrite exec_emit
      | call _ => rewrite exec_call; exec_answer
      | bind_hf_hub_download => rewrite exec_bind_name
      | read_hf_hub_download => rewrite exec_read_name
      | if ?x then _ else _ => exec_test x
      | match ?x with Some _ => _ | None => _ end => destruct x
      end
  | |- context [@ret ?A ?a ?w ?s] => change (@ret A a w s) with (Returned a, s)
  | |- context [@raise ?A ?e ?w ?s] => change (@raise A e w s) with (@Raised A e, s)
  | |- context [(if ?x then _ else _) ?w ?s] => exec_test x
  | |- context [(match ?x with Some _ => _ | None => _ end) ?w ?s] => destruct x
  end;
  exec_simpl.

Ltac exec := exec_simpl; repeat exec_step.

(** ** Whole runs *)

(** C9: for a stage-1 entry of the table and no [model_base], the invocation
    never returns, and once the projector download is announced the run ends
    with the [UnboundLocalError] (a [NameError]) for [hf_hub_download], the
    name that only line 74 binds. *)
Theorem C9_stage1_projector_unbound_name (w : World) (model_path model_name : string)
    (e : Entry) (load_8bit load_4bit : bool) (device_map device : string) :
  CLIP_T5_BASE_MODELS !! model_name = Some e ->
  load_projector_only e = true ->
  let r := run w (load_pretrained_model model_path None model_name
                    load_8bit load_4bit device_map device) in
  (forall v, result r <> Returned v) /\
  (forall local_dir,
     In (Printed ("Downloading projector weights to " +:+ local_dir)) (events r) ->
     result r = Raised (UnboundLocalError "hf_hub_download") /\
     is_NameError (UnboundLocalError "hf_hub_download") = true /\
     last (events r) = Some (Printed ("Downloading projector weights to " +:+ local_dir))).
Proof.
  intros Hin Hstage r. subst r.
  destruct (table_key_markers _ _ Hin) as (Hllava & Hlora & Ht5).
  unfold_loader. rewrite Ht5, Hllava, Hlora, Hin.
  generalize (build_kwargs load_8bit load_4bit device_map (dtype_of true)).
  intros kwargs. exec;
    (split; [intros v; discriminate |]);
    intros local_dir Hd; cbn [rev log snd fst app In] in Hd;
    repeat (destruct Hd as [Hd | Hd]; [try discriminate Hd |]);
    try contradiction;
    injection Hd as Hd; apply (inj (String.app _)) in Hd; subst local_dir;
    repeat split.
Qed.

Lemma C9_stage1_projector_unbound_name_witness :
  result (run (sample_world None true [])
            (load_pretrained_model "zhiqiulin/clip-flant5-xxl-stage-1" None
               "clip-flant5-xxl-stage-1" false false "auto" "cuda"))
    = Raised (UnboundLocalError "hf_hub_download").
Proof.
  refine (proj1 (proj2 (C9_stage1_projector_unbound_name (sample_world None true [])
                          "zhiqiulin/clip-flant5-xxl-stage-1" "clip-flant5-xxl-stage-1"
                          _ false false "auto" "cuda" _ _)
                   "/home/user/clip-flant5-xxl-stage-1" _));
    [vm_compute; reflexivity | vm_compute; reflexivity | vm_compute; auto 20].
Defined.

(** C10: for a name of the table and no [model_base], two invocations that
    differ only in [load_8bit], [load_4bit] and [device_map] run alike: same
    calls, same answers, same result.  No call of the run takes the keyword
    bundle; the model is loaded as bfloat16 and moved to [device]. *)
Theorem C10_clip_t5_ignores_quantization (w : World) (model_path model_name : string)
    (e : Entry) (device : string)
    (load_8bit load_4bit : bool) (device_map : string)
    (load_8bit' load_4bit' : bool) (device_map' : string) :
  CLIP_T5_BASE_MODELS !! model_name = Some e ->
  run w (load_pretrained_model model_path None model_name
           load_8bit load_4bit device_map device)
  = run w (load_pretrained_model model_path None model_name
             load_8bit' load_4bit' device_map' device) /\
  Forall (clip_t5_event device)
    (events (run w (load_pretrained_model model_path None model_name
                      load_8bit load_4bit device_map device))).
Proof.
  intros Hin.
  destruct (table_key_markers _ _ Hin) as (Hllava & Hlora & Ht5).
  split.
  - unfold load_pretrained_model, run. rewrite Ht5, Hllava. reflexivity.
  - unfold_loader. rewrite Ht5, Hllava, Hlora, Hin.
    generalize (build_kwargs load_8bit load_4bit device_map (dtype_of true)).
    intros kwargs. exec; cbn; repeat constructor.
Qed.

Lemma C10_clip_t5_ignores_quantization_witness :
  run (sample_world None true [])
    (load_pretrained_model "zhiqiulin/clip-flant5-xxl" None "clip-flant5-xxl"
       true false "auto" "cuda")
  = run (sample_world None true [])
      (load_pretrained_model "zhiqiulin/clip-flant5-xxl" None "clip-flant5-xxl"
         false true "balanced" "cuda").
Proof.
  refine (proj1 (C10_clip_t5_ignores_quantization (sample_world None true [])
                   "zhiqiulin/clip-flant5-xxl" "clip-flant5-xxl" _ "cuda"
                   true false "auto" false true "balanced" _)).
  vm_compute. reflexivity.
Defined.

(** ** The warning for a missing [model_base] *)

(** C7, as stated, fails: the warning is inside the two family branches, so
    a name with [lora] and no family marker gets no warning, only the
    [NotImplementedError]. *)
Lemma C7_no_warning_outside_families :
  let r := run (sample_world None true [])
             (load_pretrained_model "ckpt" None "vicuna-7b-lora" false false "auto" "cuda") in
  contains "lora" (lower "vicuna-7b-lora") = true /\
  ~ In (Warned lora_warning) (events r) /\
  events r = [] /\
  result r = Raised NotImplementedError.
Proof. vm_compute. repeat split; auto. Qed.

(** C7, amended: for a name with [lora] and a family marker ([llava], or
    [clip-t5] / [clip-flant5]) and no [model_base], the warning is the first
    event of the run and the run goes on after it.  In the LLaVA branch the
    next event is the tokenizer load of the self-contained path; in the
    CLIP-T5 branch the run reaches the table lookup of line 126, which raises
    [KeyError]. *)
Theorem C7_warning_then_proceeds (w : World) (model_path model_name : string)
    (load_8bit load_4bit : bool) (device_map device : string) :
  contains "lora" (lower model_name) = true ->
  contains "llava" (lower model_name) = true \/ use_t5_of model_name = true ->
  let r := run w (load_pretrained_model model_path None model_name
                    load_8bit load_4bit device_map device) in
  (exists rest, events r = Warned lora_warning :: rest) /\
  (contains "llava" (lower model_name) = true ->
     exists answer rest,
       events r = Warned lora_warning
                  :: Called (AutoTokenizer_from_pretrained model_path
                               (contains "mpt" (lower model_name))) answer
                  :: rest) /\
  (contains "llava" (lower model_name) = false ->
     result r = Raised (KeyError model_name) /\ events r = [Warned lora_warning]).
Proof.
  intros Hlora Hfamily r. subst r.
  destruct (contains "llava" (lower model_name)) eqn:Hllava.
  - unfold_loader. rewrite Hllava, Hlora.
    generalize (build_kwargs load_8bit load_4bit device_map
                  (dtype_of (use_t5_of model_name))).
    intros kwargs.
    exec; cbn; (split; [eauto |]); (split; [eauto | discriminate]).
  - destruct Hfamily as [? | Ht5]; [discriminate |].
    unfold_loader.
    rewrite Ht5, Hllava, Hlora, (lora_name_not_in_table _ Hlora). exec. cbn.
    split; [eauto |]. split; [discriminate | auto].
Qed.

Lemma C7_warning_then_proceeds_witness :
  exists answer rest,
    events (run (sample_world None true [])
              (load_pretrained_model "ckpt" None "llava-v1.5-7b-lora"
                 false false "auto" "cuda"))
    = Warned lora_warning
      :: Called (AutoTokenizer_from_pretrained "ckpt" false) answer :: rest.
Proof.
  refine (proj1 (proj2 (C7_warning_then_proceeds (sample_world None true [])
                          "ckpt" "llava-v1.5-7b-lora" false false "auto" "cuda" _ _)) _);
    [vm_compute; reflexivity | left; vm_compute; reflexivity | vm_compute; reflexivity].
Defined.

(** ** The renaming of the side weights *)

Lemma strip_prefix_app (p r : string) : strip_prefix p (p +:+ r) = Some r.
Proof.
  induction p as [| a p IH]; [reflexivity |].
  change (String a p +:+ r) with (String a (p +:+ r)). cbn -[Ascii.eqb].
  rewrite Ascii.eqb_refl. exact IH.
Qed.

Lemma strip_prefix_Some (p k r : string) : strip_prefix p k = Some r -> k = p +:+ r.
Proof.
  revert k. induction p as [| a p IH]; intros k H; cbn -[Ascii.eqb] in *.
  - injection H as ->. reflexivity.
  - destruct k as [| b k]; [discriminate |].
    destruct (Ascii.eqb a b) eqn:E; [| discriminate].
    apply Ascii.eqb_eq in E. subst b.
    change (String a k = String a (p +:+ r)). f_equal. auto.
Qed.

(** Stripping removes exactly the prefix, and leaves other keys alone. *)
Lemma without_prefix_app (p r : string) : without_prefix p (p +:+ r) = r.
Proof. unfold without_prefix. by rewrite strip_prefix_app. Qed.

Lemma without_prefix_other (p k : string) :
  (forall r, k <> p +:+ r) -> without_prefix p k = k.
Proof.
  intros H. unfold without_prefix.
  destruct (strip_prefix p k) as [r |] eqn:E; [| reflexivity].
  apply strip_prefix_Some in E. by apply H in E.
Qed.

Lemma startswith_true_strip (p k : string) :
  startswith p k = true -> strip_prefix p k = Some (slice_from (String.length p) k).
Proof.
  revert k. induction p as [| a p IH]; intros k H; cbn -[Ascii.eqb] in *; [reflexivity |].
  destruct k as [| b k]; [discriminate |].
  destruct (Ascii.eqb a b); [auto | discriminate].
Qed.

Lemma startswith_false_strip (p k : string) :
  startswith p k = false -> strip_prefix p k = None.
Proof.
  revert k. induction p as [| a p IH]; intros k H; cbn -[Ascii.eqb] in *; [discriminate |].
  destruct k as [| b k]; [reflexivity |].
  destruct (Ascii.eqb a b); [auto | reflexivity].
Qed.

(** The slices of lines 82 and 84 strip the prefixes: 11 and 6 are the
    lengths of [base_model.] and [model.]. *)
Lemma slice_strips (p k : string) :
  (if startswith p k then slice_from (String.length p) k else k) = without_prefix p k.
Proof.
  unfold without_prefix. destruct (startswith p k) eqn:E.
  - by rewrite (startswith_true_strip _ _ E).
  - by rewrite (startswith_false_strip _ _ E).
Qed.

Lemma strip_base_model_spec (k : string) :
  strip_base_model k = without_prefix "base_model." k.
Proof. exact (slice_strips "base_model." k). Qed.

Lemma strip_model_spec (k : string) : strip_model k = without_prefix "model." k.
Proof. exact (slice_strips "model." k). Qed.

Section Comprehension.
Context {V W : Type} (fk : string -> string) (fv : V -> W).

Lemma keys_setitem (k : string) (v : W) (d : PyDict.dict W) (k' : string) :
  In k' (PyDict.keys (PyDict.setitem k v d)) <-> k' = k \/ In k' (PyDict.keys d).
Proof.
  induction d as [| [k1 v1] d IH]; cbn.
  - intuition congruence.
  - destruct (String.eqb k1 k) eqn:E; cbn.
    + apply String.eqb_eq in E. subst k1. intuition congruence.
    + rewrite IH. intuition congruence.
Qed.

Lemma items_setitem (k : string) (v : W) (d : PyDict.dict W) (k' : string) (v' : W) :
  In (k', v') (PyDict.setitem k v d) -> (k', v') = (k, v) \/ In (k', v') d.
Proof.
  induction d as [| [k1 v1] d IH]; cbn.
  - intuition congruence.
  - destruct (String.eqb k1 k) eqn:E; cbn.
    + apply String.eqb_eq in E. subst k1. intuition congruence.
    + intuition congruence.
Qed.

Lemma keys_fold (d : PyDict.dict V) (acc : PyDict.dict W) (k : string) :
  In k (PyDict.keys
          (fold_left (fun acc kv => PyDict.setitem (fk (fst kv)) (fv (snd kv)) acc)
             d acc)) <->
  In k (PyDict.keys acc) \/ exists k0, In k0 (PyDict.keys d) /\ k = fk k0.
Proof.
  revert acc. induction d as [| [k1 v1] d IH]; intros acc; cbn [fold_left].
  - cbn. split; [auto | intros [? | (? & [] & _)]; auto].
  - rewrite IH, keys_setitem. cbn. split.
    + intros [[-> | ?] | (k0 & ? & ->)]; eauto 6.
    + intros [? | (k0 & [<- | ?] & ->)]; eauto 6.
Qed.

Lemma items_fold (d : PyDict.dict V) (acc : PyDict.dict W) (k : string) (v : W) :
  In (k, v)
     (fold_left (fun acc kv => PyDict.setitem (fk (fst kv)) (fv (snd kv)) acc) d acc) ->
  In (k, v) acc \/ exists k0 v0, In (k0, v0) d /\ k = fk k0 /\ v = fv v0.
Proof.
  revert acc. induction d as [| [k1 v1] d IH]; intros acc; cbn [fold_left]; [auto |].
  intros H. apply IH in H as [H | (k0 & v0 & ? & ? & ?)]; [| right; exists k0, v0; cbn; auto].
  apply items_setitem in H as [H | H]; [| auto].
  cbn in H. injection H as -> ->. right. exists k1, v1. cbn. auto.
Qed.

(** The keys of a comprehension are the images of the keys. *)
Lemma keys_comprehension (d : PyDict.dict V) (k : string) :
  In k (PyDict.keys (PyDict.comprehension fk fv d)) <->
  exists k0, In k0 (PyDict.keys d) /\ k = fk k0.
Proof.
  unfold PyDict.comprehension. rewrite keys_fold. cbn. tauto.
Qed.

(** Every item of a comprehension comes from an item. *)
Lemma items_comprehension (d : PyDict.dict V) (k : string) (v : W) :
  In (k, v) (PyDict.comprehension fk fv d) ->
  exists k0 v0, In (k0, v0) d /\ k = fk k0 /\ v = fv v0.
Proof.
  unfold PyDict.comprehension. intros H.
  apply items_fold in H as [[] | H]. exact H.
Qed.
End Comprehension.

Lemma nested_test_spec (d : StateDict) :
  existsb (startswith "model.model.")
          (PyDict.keys (PyDict.comprehension strip_base_model id d))
  = nested_prefix_detected d.
Proof.
  unfold nested_prefix_detected. apply eq_iff_eq_true.
  rewrite !existsb_exists. split.
  - intros (k & Hk & Hs). apply keys_comprehension in Hk as (k0 & Hk0 & ->).
    exists k0. by rewrite <- strip_base_model_spec.
  - intros (k0 & Hk0 & Hs). exists (strip_base_model k0). split.
    + apply keys_comprehension. eauto.
    + by rewrite strip_base_model_spec.
Qed.

(** Lines 82-84 against the specification's words: the keys after the
    renaming are the renamed keys, and every tensor is kept under the
    renamed key of an item it came from. *)
Lemma rename_characterised (d : StateDict) :
  (forall k, In k (PyDict.keys (rename_non_lora_trainables d)) <->
             exists k0, In k0 (PyDict.keys d) /\
                        k = renamed_key (nested_prefix_detected d) k0) /\
  (forall k v, In (k, v) (rename_non_lora_trainables d) ->
               exists k0, In (k0, v) d /\
                          k = renamed_key (nested_prefix_detected d) k0).
Proof.
  unfold rename_non_lora_trainables, renamed_key. rewrite nested_test_spec.
  destruct (nested_prefix_detected d); split.
  - intros k. rewrite keys_comprehension. split.
    + intros (k1 & Hk1 & ->). apply keys_comprehension in Hk1 as (k0 & Hk0 & ->).
      exists k0. by rewrite strip_model_spec, strip_base_model_spec.
    + intros (k0 & Hk0 & ->). exists (strip_base_model k0). split.
      * apply keys_comprehension. eauto.
      * by rewrite strip_model_spec, strip_base_model_spec.
  - intros k v H. apply items_comprehension in H as (k1 & v1 & H & -> & ->).
    apply items_comprehension in H as (k0 & v0 & H & -> & ->).
    exists k0. by rewrite strip_model_spec, strip_base_model_spec.
  - intros k. rewrite keys_comprehension. split.
    + intros (k0 & Hk0 & ->). exists k0. by rewrite strip_base_model_spec.
    + intros (k0 & Hk0 & ->). exists k0. by rewrite strip_base_model_spec.
  - intros k v H. apply items_comprehension in H as (k0 & v0 & H & -> & ->).
    exists k0. by rewrite strip_base_model_spec.
Qed.

Lemma adjacent_here (ev next : event) (after : list event) :
  adjacent (ev :: next :: after) ev next.
Proof. by exists [], after. Qed.

Lemma adjacent_later (e ev next : event) (t : list event) :
  adjacent t ev next -> adjacent (e :: t) ev next.
Proof. intros (before & after & ->). by exists (e :: before), after. Qed.

Ltac find_adjacent := repeat first [apply adjacent_here | apply adjacent_later].

(** C6: in the LoRA merge path, whenever [torch.load] has returned the side
    weights, the very next thing the loader does is to call
    [load_state_dict] with the renaming of that mapping and [strict=False];
    a run that returns has done so, with the merge returning; and there is
    no other merge: every [load_state_dict] of the run is non-strict and
    comes right after such a load, with the renaming of what was loaded.
    The renaming strips [base_model.] from every key that has it and then,
    when some resulting key starts with [model.model.], strips [model.] from
    every key that has it; other keys are unchanged, and every tensor stays
    with the renamed key of an item it came from. *)
Theorem C6_lora_weights_renamed (w : World) (model_path model_base model_name : string)
    (load_8bit load_4bit : bool) (device_map device : string) :
  contains "llava" (lower model_name) = true ->
  contains "lora" (lower model_name) = true ->
  let r := run w (load_pretrained_model model_path (Some model_base) model_name
                    load_8bit load_4bit device_map device) in
  (forall ev loaded,
     In ev (events r) -> loaded_state ev = Some loaded ->
     exists m out,
       adjacent (events r) ev
         (Called (load_state_dict m (rename_non_lora_trainables loaded) false) out)) /\
  (forall v, result r = Returned v ->
     exists path loaded m m',
       adjacent (events r)
         (Called (torch_load path "cpu") (Returned loaded))
         (Called (load_state_dict m (rename_non_lora_trainables loaded) false)
                 (Returned m'))) /\
  (forall next state strict,
     In next (events r) -> merge_of next = Some (state, strict) ->
     strict = false /\
     exists ev loaded,
       adjacent (events r) ev next /\ loaded_state ev = Some loaded /\
       state = rename_non_lora_trainables loaded) /\
  (forall loaded : StateDict,
     (forall k, In k (PyDict.keys (rename_non_lora_trainables loaded)) <->
                exists k0, In k0 (PyDict.keys loaded) /\
                           k = renamed_key (nested_prefix_detected loaded) k0) /\
     (forall k v, In (k, v) (rename_non_lora_trainables loaded) ->
                  exists k0, In (k0, v) loaded /\
                             k = renamed_key (nested_prefix_detected loaded) k0)) /\
  (forall p rest, without_prefix p (p +:+ rest) = rest) /\
  (forall p k, (forall rest, k <> p +:+ rest) -> without_prefix p k = k).
Proof.
  intros Hllava Hlora r.
  split; [| split; [| split; [| split; [exact rename_characterised |
    split; [exact without_prefix_app | exact without_prefix_other]]]]]; subst r.
  - unfold_loader. rewrite Hllava, Hlora.
    generalize (build_kwargs load_8bit load_4bit device_map
                  (dtype_of (use_t5_of model_name))).
    intros kwargs. exec;
      intros ev loaded Hin Hl; cbn [log snd rev app In] in *;
      repeat (destruct Hin as [Hin | Hin];
              [ subst ev; cbn [loaded_state] in Hl;
                first [ discriminate Hl
                      | injection Hl as <-; do 2 eexists; find_adjacent ]
              | ]);
      contradiction.
  - unfold_loader. rewrite Hllava, Hlora.
    generalize (build_kwargs load_8bit load_4bit device_map
                  (dtype_of (use_t5_of model_name))).
    intros kwargs. exec;
      intros ? Hres; cbn [log snd fst rev app] in *;
      first [ discriminate Hres | do 4 eexists; find_adjacent ].
  - unfold_loader. rewrite Hllava, Hlora.
    generalize (build_kwargs load_8bit load_4bit device_map
                  (dtype_of (use_t5_of model_name))).
    intros kwargs. exec;
      intros next state strict Hin Hm; cbn [log snd rev app In] in *;
      repeat (destruct Hin as [Hin | Hin];
              [ subst next; cbn [merge_of] in Hm;
                first [ discriminate Hm
                      | injection Hm as <- <-; split; [reflexivity |];
                        eexists (Called (torch_load _ _) (Returned _)), _;
                        split; [find_adjacent |]; split; reflexivity ]
              | ]);
      contradiction.
Qed.

Lemma C6_lora_weights_renamed_witness :
  (exists m out,
     adjacent
       (events (run (sample_world None false sample_weights)
                  (load_pretrained_model "liuhaotian/llava-v1.5-7b-lora"
                     (Some "lmsys/vicuna-7b-v1.5") "llava-v1.5-7b-lora"
                     false false "auto" "cuda")))
       (Called (torch_load "/cache/non_lora_trainables.bin" "cpu")
               (Returned sample_weights))
       (Called (load_state_dict m (rename_non_lora_trainables sample_weights) false)
               out)) /\
  (exists path loaded m m',
     adjacent
       (events (run (sample_world None false sample_weights)
                  (load_pretrained_model "liuhaotian/llava-v1.5-7b-lora"
                     (Some "lmsys/vicuna-7b-v1.5") "llava-v1.5-7b-lora"
                     false false "auto" "cuda")))
       (Called (torch_load path "cpu") (Returned loaded))
       (Called (load_state_dict m (rename_non_lora_trainables loaded) false)
               (Returned m'))) /\
  PyDict.keys (rename_non_lora_trainables sample_weights)
    = ["model.mm_projector.weight"; "model.mm_projector.bias"; "lm_head.weight"; "note"].
Proof.
  assert (Hllava : contains "llava" (lower "llava-v1.5-7b-lora") = true)
    by (vm_compute; reflexivity).
  assert (Hlora : contains "lora" (lower "llava-v1.5-7b-lora") = true)
    by (vm_compute; reflexivity).
  pose proof (C6_lora_weights_renamed (sample_world None false sample_weights)
              "liuhaotian/llava-v1.5-7b-lora" "lmsys/vicuna-7b-v1.5" "llava-v1.5-7b-lora"
              false false "auto" "cuda" Hllava Hlora) as H.
  cbv zeta in H. destruct H as (Hnext & Hret & _).
  split; [| split].
  - apply (Hnext (Called (torch_load "/cache/non_lora_trainables.bin" "cpu")
                         (Returned sample_weights)) sample_weights);
      [vm_compute; repeat first [left; reflexivity | right] | reflexivity].
  - assert (Hv : exists v,
               result (run (sample_world None false sample_weights)
                         (load_pretrained_model "liuhaotian/llava-v1.5-7b-lora"
                            (Some "lmsys/vicuna-7b-v1.5") "llava-v1.5-7b-lora"
                            false false "auto" "cuda")) = Returned v)
      by (eexists; vm_compute; reflexivity).
    destruct Hv as [v Hv]. exact (Hret v Hv).
  - vm_compute; reflexivity.
Defined.

(** ** The keyword bundle, all three modes *)

(** X3: the bundle always holds the device map and exactly one loading mode:
    the 8-bit flag, or the 4-bit flag with its quantization configuration, or
    the dtype of full-precision loading; and no other key. *)
Theorem kwargs_one_mode (load_8bit load_4bit : bool) (device_map : string) (dt : dtype) :
  let kw := build_kwargs load_8bit load_4bit device_map dt in
  kw !! "device_map" = Some (KwStr device_map) /\
  kw !! "load_in_8bit" = (if load_8bit then Some (KwBool true) else None) /\
  kw !! "load_in_4bit"
    = (if negb load_8bit && load_4bit then Some (KwBool true) else None) /\
  (is_Some (kw !! "quantization_config") <-> is_Some (kw !! "load_in_4bit")) /\
  kw !! "torch_dtype"
    = (if negb load_8bit && negb load_4bit then Some (KwDtype dt) else None) /\
  (forall k, is_Some (kw !! k) ->
             In k ["device_map"; "load_in_8bit"; "load_in_4bit";
                   "quantization_config"; "torch_dtype"]).
Proof.
  intros kw. subst kw.
  destruct load_8bit, load_4bit; cbn [build_kwargs negb andb];
    repeat match goal with |- _ /\ _ => split end;
    try (by simplify_map_eq);
    intros k Hk;
    repeat (rewrite lookup_insert in Hk;
            destruct (decide (_ = k)) as [<- | ?]; [cbn; tauto |]);
    (rewrite lookup_singleton in Hk;
     destruct (decide (_ = k)) as [<- | ?]; [cbn; tauto | by destruct Hk]).
Qed.

Lemma kwargs_one_mode_witness :
  In "torch_dtype" ["device_map"; "load_in_8bit"; "load_in_4bit";
                    "quantization_config"; "torch_dtype"].
Proof.
  apply (proj2 (proj2 (proj2 (proj2 (proj2
           (kwargs_one_mode false false "auto" float16)))))).
  vm_compute. eauto.
Defined.

(** ** The output projection, lines 64-67 *)

(** The two outcomes of the check of lines 64-67. *)
Lemma realloc_lm_head_cases (m : Model) :
  (fst (weight_shape (lm_head m)) = out_features (lm_head m) /\
   realloc_lm_head m = m) \/
  (fst (weight_shape (lm_head m)) <> out_features (lm_head m) /\
   realloc_lm_head m
   = set_embed_tokens_weight
       (set_lm_head_weight m (out_features (lm_head m), in_features (lm_head m)))
       (out_features (lm_head m), in_features (lm_head m))).
Proof.
  unfold realloc_lm_head.
  destruct (Z.eqb_spec (fst (weight_shape (lm_head m))) (out_features (lm_head m)));
    cbn [negb]; auto.
Qed.

(** X4: after the check of lines 64-67 the weight of the output projection has
    [out_features] rows; a model whose rows already agree is left as it is,
    otherwise both the output projection and the token embedding get the
    shape [(out_features, in_features)]; the check changes nothing else and
    doing it twice is doing it once. *)
Theorem realloc_lm_head_rows (m : Model) :
  fst (weight_shape (lm_head (realloc_lm_head m))) = out_features (lm_head m) /\
  (fst (weight_shape (lm_head m)) = out_features (lm_head m) ->
   realloc_lm_head m = m) /\
  (fst (weight_shape (lm_head m)) <> out_features (lm_head m) ->
   weight_shape (lm_head (realloc_lm_head m))
     = (out_features (lm_head m), in_features (lm_head m)) /\
   embed_tokens_weight (realloc_lm_head m)
     = (out_features (lm_head m), in_features (lm_head m))) /\
  out_features (lm_head (realloc_lm_head m)) = out_features (lm_head m) /\
  in_features (lm_head (realloc_lm_head m)) = in_features (lm_head m) /\
  config (realloc_lm_head m) = config m /\
  vision_tower (realloc_lm_head m) = vision_tower m /\
  mm_projector (realloc_lm_head m) = mm_projector m /\
  realloc_lm_head (realloc_lm_head m) = realloc_lm_head m.
Proof.
  destruct (realloc_lm_head_cases m) as [[E ->] | [E ->]].
  - repeat split; auto; try congruence.
    destruct (realloc_lm_head_cases m) as [[_ ->] | [E' _]]; congruence.
  - cbn. repeat split; auto; try congruence.
    match goal with |- realloc_lm_head ?m' = _ =>
      destruct (realloc_lm_head_cases m') as [[_ ->] | [E' _]]; [reflexivity |]
    end.
    cbn in E'. congruence.
Qed.

Lemma realloc_lm_head_rows_witness :
  embed_tokens_weight
    (realloc_lm_head
       {| config := {| config_source := "ckpt"; max_sequence_length := None |};
          lm_head := {| out_features := 32003; in_features := 4096;
                        weight_shape := (32000, 4096)%Z |};
          embed_tokens_weight := (32000, 4096)%Z;
          vision_tower := None; mm_projector := None |})
  = (32003, 4096)%Z.
Proof.
  refine (proj2 (proj1 (proj2 (proj2 (realloc_lm_head_rows _))) _)).
  vm_compute. discriminate.
Defined.

(** ** Dict comprehensions on clean input *)

Lemma setitem_fresh {V} (k : string) (v : V) (d : PyDict.dict V) :
  ~ In k (PyDict.keys d) -> PyDict.setitem k v d = (d ++ [(k, v)])%list.
Proof.
  induction d as [| [k1 v1] d IH]; cbn; [reflexivity |].
  intros H. destruct (String.eqb k1 k) eqn:E.
  - apply String.eqb_eq in E. tauto.
  - f_equal. apply IH. tauto.
Qed.

Lemma fold_setitem_clean {V} (fk : string -> string) (d acc : PyDict.dict V) :
  List.NoDup (PyDict.keys (acc ++ d)%list) ->
  (forall k, In k (PyDict.keys d) -> fk k = k) ->
  fold_left (fun acc kv => PyDict.setitem (fk (fst kv)) (id (snd kv)) acc) d acc
  = (acc ++ d)%list.
Proof.
  revert acc. induction d as [| [k1 v1] d IH]; intros acc Hnd Hfk; cbn [fold_left].
  - symmetry. apply app_nil_r.
  - cbn [fst snd id]. rewrite (Hfk k1) by (left; reflexivity).
    assert (Hacc : (acc ++ (k1, v1) :: d)%list = ((acc ++ [(k1, v1)]) ++ d)%list)
      by apply (app_assoc acc [(k1, v1)] d).
    rewrite setitem_fresh.
    + rewrite Hacc. apply IH.
      * rewrite <- Hacc. exact Hnd.
      * intros k Hk. apply Hfk. right. exact Hk.
    + unfold PyDict.keys in Hnd |- *. rewrite map_app in Hnd.
      apply List.NoDup_remove_2 in Hnd. intros Hin. apply Hnd.
      apply in_or_app. left. exact Hin.
Qed.

(** A comprehension that renames no key of a dict with distinct keys keeps
    the items in their order. *)
Lemma comprehension_clean {V} (fk : string -> string) (d : PyDict.dict V) :
  List.NoDup (PyDict.keys d) ->
  (forall k, In k (PyDict.keys d) -> fk k = k) ->
  PyDict.comprehension fk id d = d.
Proof.
  intros Hnd Hfk. unfold PyDict.comprehension.
  exact (fold_setitem_clean fk d [] Hnd Hfk).
Qed.

(** X13: a mapping with distinct keys, none starting with [base_model.] or
    with [model.model.], goes through the renaming unchanged, in the same
    order. *)
Theorem rename_clean_unchanged (d : StateDict) :
  List.NoDup (PyDict.keys d) ->
  (forall k, In k (PyDict.keys d) ->
             startswith "base_model." k = false /\
             startswith "model.model." k = false) ->
  rename_non_lora_trainables d = d.
Proof.
  intros Hnd Hk. unfold rename_non_lora_trainables.
  rewrite (comprehension_clean strip_base_model d Hnd).
  - destruct (existsb (startswith "model.model.") (PyDict.keys d)) eqn:E;
      [| reflexivity].
    apply existsb_exists in E as (k & Hin & Hs).
    destruct (Hk k Hin). congruence.
  - intros k Hin. unfold strip_base_model. by destruct (Hk k Hin) as [-> _].
Qed.

Lemma rename_clean_unchanged_witness :
  rename_non_lora_trainables
    [ ("model.mm_projector.weight", {| tensor_id := 1; tensor_dtype := float16 |});
      ("lm_head.weight", {| tensor_id := 2; tensor_dtype := float16 |}) ]
  = [ ("model.mm_projector.weight", {| tensor_id := 1; tensor_dtype := float16 |});
      ("lm_head.weight", {| tensor_id := 2; tensor_dtype := float16 |}) ].
Proof.
  apply rename_clean_unchanged.
  - vm_compute. repeat constructor; cbn; intuition discriminate.
  - intros k [<- | [<- | []]]; vm_compute; auto.
Defined.

(** ** What every run keeps to *)

Section Keeping.
Context (step : list event -> event -> Prop) (model_name : string).
Context (w : World) (b : bool) (l : list event).

Lemma ok_call {X B} (c : Call X) (k : X -> M B) :
  good step l ->
  (forall r, step l (Called c r)) ->
  (forall a, good step (Called c (Returned a) :: l) ->
             final_ok step model_name
               (k a w {| hf_hub_download_bound := b;
                         log := Called c (Returned a) :: l |})) ->
  final_ok step model_name
    (bind (call c) k w {| hf_hub_download_bound := b; log := l |}).
Proof.
  intros [Hl Hn] Hs Hk. rewrite exec_call. destruct (w X l c) as [a | e].
  - apply Hk. split; [split; auto | reflexivity].
  - split; [split; auto |]. cbn.
    split; intros e' [= <-]; [left |]; reflexivity.
Qed.

Lemma ok_emit {B} (ev : event) (k : unit -> M B) :
  good step l -> raised_by ev = None -> step l ev ->
  (good step (ev :: l) ->
   final_ok step model_name
     (k tt w {| hf_hub_download_bound := b; log := ev :: l |})) ->
  final_ok step model_name
    (bind (emit ev) k w {| hf_hub_download_bound := b; log := l |}).
Proof.
  intros [Hl Hn] He Hs Hk. rewrite exec_emit. apply Hk.
  split; [split; auto | exact He].
Qed.

Lemma ok_returned {A} (a : A) :
  good step l ->
  final_ok step model_name (Returned a, {| hf_hub_download_bound := b; log := l |}).
Proof.
  intros [Hl Hn]. split; [exact Hl |]. cbn.
  split; [discriminate | rewrite Hn; discriminate].
Qed.

Lemma ok_raised {A} (e : exn) :
  good step l -> own_exception model_name e ->
  final_ok step model_name
    (@Raised A e, {| hf_hub_download_bound := b; log := l |}).
Proof.
  intros [Hl Hn] He. split; [exact Hl |]. cbn.
  split; [intros e' [= <-]; right; exact He | rewrite Hn; discriminate].
Qed.
End Keeping.

(** A run step that keeps what is known of the vision tower. *)
Ltac exec_tower :=
  match goal with
  | |- context [is_loaded ?vt] =>
      is_var vt; destruct vt as [[|] ?]; cbn [is_loaded]
  end.

Ltac step_ok :=
  split; [reflexivity |];
  cbn [call_allowed previous default];
  repeat split;
  solve [ intros [? Hx]; first [assumption | discriminate | discriminate (Hx eq_refl)]
        | done | eauto 8 | intros; congruence ].

(** A test of the loader: by cases on what it tests. *)
Ltac keep_test x :=
  lazymatch x with
  | if ?y then _ else _ => keep_test y
  | negb ?y => keep_test y
  | bool_decide (?y = None) => destruct y
  | _ => destruct x
  end.

(** One statement of a run, with the check of the step it takes. *)
Ltac keep_step :=
  lazymatch goal with
  | |- final_ok _ _ (@bind ?A ?B ?c ?k ?w ?s) =>
      lazymatch c with
      | bind ?c1 ?k1 => rewrite (exec_assoc w c1 k1 k s)
      | ret ?a => rewrite (exec_ret w a k s)
      | raise ?e => rewrite (exec_raise w e k s)
      | emit _ =>
          eapply ok_emit; [eassumption | reflexivity | step_ok | ];
          let H := fresh "Hgood" in intros H
      | call _ =>
          eapply ok_call; [eassumption | intros ?; step_ok | ];
          let H := fresh "Hgood" in intros ? H
      | bind_hf_hub_download => rewrite exec_bind_name
      | read_hf_hub_download => rewrite exec_read_name
      | if ?x then _ else _ => first [exec_tower | keep_test x]
      | match ?x with Some _ => _ | None => _ end => destruct x
      end
  | |- final_ok _ _ (@ret ?A ?a ?w ?s) =>
      change (@ret A a w s) with (Returned a, s); apply ok_returned; eassumption
  | |- final_ok _ _ (@raise ?A ?e ?w ?s) =>
      change (@raise A e w s) with (@Raised A e, s)
  | |- final_ok _ _ (Raised _, _) =>
      apply ok_raised; [eassumption | cbn [own_exception]; done]
  | |- final_ok _ _ ((if ?x then _ else _) ?w ?s) => first [exec_tower | keep_test x]
  | |- final_ok _ _ ((match ?x with Some _ => _ | None => _ end) ?w ?s) => destruct x
  end;
  exec_simpl.

(** Every run of the loader, in every environment, takes only allowed steps;
    an exception of the run is the exception of its last call or one of the
    loader's own, and a call that raises ends the run with its exception. *)
Lemma run_allowed (w : World) (model_path : string) (model_base : option string)
    (model_name : string) (load_8bit load_4bit : bool) (device_map device : string) :
  final_ok
    (step_allowed model_path model_base
       (contains "llava" (lower model_name))
       (contains "lora" (lower model_name))
       (contains "mpt" (lower model_name))
       (use_t5_of model_name)
       (CLIP_T5_BASE_MODELS !! model_name)
       (build_kwargs load_8bit load_4bit device_map (dtype_of (use_t5_of model_name)))
       device)
    model_name
    (run w (load_pretrained_model model_path model_base model_name
              load_8bit load_4bit device_map device)).
Proof.
  unfold_loader. cbv zeta.
  generalize (build_kwargs load_8bit load_4bit device_map
                (dtype_of (use_t5_of model_name))).
  intros kwargs.
  generalize (use_t5_of model_name) (CLIP_T5_BASE_MODELS !! model_name)
    (contains "mpt" (lower model_name)) (contains "lora" (lower model_name))
    (contains "llava" (lower model_name)).
  intros use_t5 entry mpt lora llava.
  assert (Hgood : good (step_allowed model_path model_base llava lora mpt use_t5
                          entry kwargs device) [])
    by (split; [exact I | reflexivity]).
  exec_simpl. repeat keep_step.
Qed.

Lemma log_ok_In (step : list event -> event -> Prop) (l : list event) (ev : event) :
  log_ok step l -> In ev l ->
  exists newer hist, l = (newer ++ ev :: hist)%list /\ step hist ev.
Proof.
  induction l as [| ev' l IH]; cbn; [tauto |].
  intros [Hs Hl] [-> | Hin].
  - exists [], l. auto.
  - destruct (IH Hl Hin) as (newer & hist & -> & H).
    exists (ev' :: newer), hist. auto.
Qed.

Lemma previous_rev (before : list event) (ev : event) :
  previous (rev before) = Some ev -> exists before', before = (before' ++ [ev])%list.
Proof.
  destruct (rev before) as [| ev' t] eqn:E; cbn; [discriminate |].
  intros [= ->]. exists (rev t).
  rewrite <- (rev_involutive before), E. reflexivity.
Qed.


(** Every event of a run was an allowed step after the events before it. *)
Lemma run_event_allowed (w : World) (model_path : string) (model_base : option string)
    (model_name : string) (load_8bit load_4bit : bool) (device_map device : string)
    (ev : event) :
  In ev (events (run w (load_pretrained_model model_path model_base model_name
                          load_8bit load_4bit device_map device))) ->
  exists before after,
    events (run w (load_pretrained_model model_path model_base model_name
                     load_8bit load_4bit device_map device))
    = (before ++ ev :: after)%list /\
    step_allowed model_path model_base
      (contains "llava" (lower model_name))
      (contains "lora" (lower model_name))
      (contains "mpt" (lower model_name))
      (use_t5_of model_name)
      (CLIP_T5_BASE_MODELS !! model_name)
      (build_kwargs load_8bit load_4bit device_map (dtype_of (use_t5_of model_name)))
      device (rev before) ev.
Proof.
  intros Hin. apply in_rev in Hin.
  destruct (run_allowed w model_path model_base model_name load_8bit load_4bit
              device_map device) as (Hlog & _).
  destruct (log_ok_In _ _ _ Hlog Hin) as (newer & hist & Hl & Hs).
  exists (rev hist), (rev newer). split.
  - unfold events, trace. rewrite Hl, rev_app_distr. cbn.
    by rewrite <- app_assoc.
  - by rewrite rev_involutive.
Qed.

(** An event of a trace with the event that came just before it. *)
Lemma adjacent_previous (t before after : list event) (ev prev : event) :
  t = (before ++ ev :: after)%list -> previous (rev before) = Some prev ->
  adjacent t prev ev.
Proof.
  intros -> Hp. apply previous_rev in Hp as [before' ->].
  exists before', after. by rewrite <- app_assoc.
Qed.

Lemma adjacent_In (t : list event) (ev next : event) :
  adjacent t ev next -> In ev t /\ In next t.
Proof.
  intros (before & after & ->). split; apply in_or_app; right; cbn; auto.
Qed.

(** A run, read as its allowed steps. *)
Ltac run_step H before after Hev Hstep :=
  apply run_event_allowed in H as (before & after & Hev & [_ Hstep]);
  cbn [call_allowed] in Hstep.

(** ** What the loader asks of the libraries, in every run *)

(** X5: every load of a LLaVA model class happens for a name with [llava],
    from [model_base] when it is given and from [model_path] otherwise, with
    [low_cpu_mem_usage=True] and the keyword bundle of lines 38-53, and with
    a configuration exactly when [model_base] is given.  The MPT class is
    loaded only for a name with [mpt]; the Llama class is loaded for such a
    name only on the LoRA merge path. *)
Theorem llava_class_loads (w : World) (model_path : string)
    (model_base : option string) (model_name : string) (load_8bit load_4bit : bool)
    (device_map device : string) :
  (forall path low_cpu_mem_usage cfg kw out,
     In (Called (LlavaLlamaForCausalLM_from_pretrained path low_cpu_mem_usage cfg kw) out)
        (events (run w (load_pretrained_model model_path model_base model_name
                          load_8bit load_4bit device_map device))) ->
     contains "llava" (lower model_name) = true /\
     path = default model_path model_base /\
     low_cpu_mem_usage = true /\
     kw = build_kwargs load_8bit load_4bit device_map
            (dtype_of (use_t5_of model_name)) /\
     (cfg = None <-> model_base = None) /\
     (contains "mpt" (lower model_name) = true ->
      contains "lora" (lower model_name) = true /\ model_base <> None)) /\
  (forall path low_cpu_mem_usage cfg kw out,
     In (Called (LlavaMPTForCausalLM_from_pretrained path low_cpu_mem_usage cfg kw) out)
        (events (run w (load_pretrained_model model_path model_base model_name
                          load_8bit load_4bit device_map device))) ->
     contains "llava" (lower model_name) = true /\
     path = default model_path model_base /\
     low_cpu_mem_usage = true /\
     kw = build_kwargs load_8bit load_4bit device_map
            (dtype_of (use_t5_of model_name)) /\
     (cfg = None <-> model_base = None) /\
     contains "mpt" (lower model_name) = true).
Proof.
  split.
  - intros path low_cpu_mem_usage cfg kw out H.
    apply run_event_allowed in H as (before & after & Hev & [_ H]). exact H.
  - intros path low_cpu_mem_usage cfg kw out H.
    apply run_event_allowed in H as (before & after & Hev & [_ H]). exact H.
Qed.

Lemma llava_class_loads_witness :
  contains "llava" (lower "llava-mpt-7b") = true /\
  "lmsys/mpt-7b" = default "liuhaotian/llava-mpt-7b" (Some "lmsys/mpt-7b") /\
  true = true /\
  build_kwargs false true "auto" float16
  = build_kwargs false true "auto" (dtype_of (use_t5_of "llava-mpt-7b")) /\
  (Some {| config_source := "liuhaotian/llava-mpt-7b"; max_sequence_length := None |}
   = None <-> Some "lmsys/mpt-7b" = None) /\
  contains "mpt" (lower "llava-mpt-7b") = true.
Proof.
  apply (proj2 (llava_class_loads (sample_world None false []) "liuhaotian/llava-mpt-7b"
                  (Some "lmsys/mpt-7b") "llava-mpt-7b" false true "auto" "cuda")
           "lmsys/mpt-7b" true
           (Some {| config_source := "liuhaotian/llava-mpt-7b";
                    max_sequence_length := None |})
           (build_kwargs false true "auto" float16)
           (Returned (sample_model None))).
  vm_compute. repeat first [left; reflexivity | right].
Defined.

(** X6: [shutil.copyfile] is called only right after [os.path.isfile] has
    answered that [configuration_mpt.py] is missing under [model_path]; it
    copies that file from under [model_base] to under [model_path], for a
    name with [mpt]. *)
Theorem copyfile_only_when_missing (w : World) (model_path : string)
    (model_base : option string) (model_name : string) (load_8bit load_4bit : bool)
    (device_map device : string) (src dst : string) (out : outcome unit) :
  In (Called (shutil_copyfile src dst) out)
     (events (run w (load_pretrained_model model_path model_base model_name
                       load_8bit load_4bit device_map device))) ->
  contains "mpt" (lower model_name) = true /\
  dst = path_join model_path "configuration_mpt.py" /\
  (exists b, model_base = Some b /\ src = path_join b "configuration_mpt.py") /\
  adjacent
    (events (run w (load_pretrained_model model_path model_base model_name
                      load_8bit load_4bit device_map device)))
    (Called (os_path_isfile dst) (Returned false))
    (Called (shutil_copyfile src dst) out).
Proof.
  intros H.
  apply run_event_allowed in H as (before & after & Hev & [_ H]).
  cbn [call_allowed] in H. destruct H as (Hdst & Hprev & Hsrc).
  pose proof (adjacent_previous _ _ _ _ _ Hev Hprev) as Hadj.
  destruct (adjacent_In _ _ _ Hadj) as [Hin _].
  apply run_event_allowed in Hin as (before' & after' & _ & [_ Hin]).
  cbn [call_allowed] in Hin. destruct Hin as [Hmpt _].
  auto.
Qed.

Lemma copyfile_only_when_missing_witness :
  contains "mpt" (lower "llava-mpt-7b") = true /\
  "liuhaotian/llava-mpt-7b/configuration_mpt.py"
  = path_join "liuhaotian/llava-mpt-7b" "configuration_mpt.py" /\
  (exists b, Some "lmsys/mpt-7b" = Some b /\
             "lmsys/mpt-7b/configuration_mpt.py" = path_join b "configuration_mpt.py") /\
  adjacent
    (events (run (sample_world None false [])
               (load_pretrained_model "liuhaotian/llava-mpt-7b" (Some "lmsys/mpt-7b")
                  "llava-mpt-7b" false true "auto" "cuda")))
    (Called (os_path_isfile "liuhaotian/llava-mpt-7b/configuration_mpt.py")
            (Returned false))
    (Called (shutil_copyfile "lmsys/mpt-7b/configuration_mpt.py"
               "liuhaotian/llava-mpt-7b/configuration_mpt.py")
            (Returned tt)).
Proof.
  apply (copyfile_only_when_missing (sample_world None false [])
           "liuhaotian/llava-mpt-7b" (Some "lmsys/mpt-7b") "llava-mpt-7b"
           false true "auto" "cuda").
  vm_compute. repeat first [left; reflexivity | right].
Defined.



(** X8: where tokenizers and configurations come from.  The generic
    tokenizer is loaded only for a name with [llava], from [model_base]
    when it is given and from [model_path] otherwise, and it is the fast one
    exactly for a name with [mpt] outside the LoRA merge path; the T5
    tokenizer is loaded only for a table entry without [model_base], from
    the entry's base model, truncating and padding on the right; a
    configuration is always read from [model_path], and remote code is
    trusted only for a name with [mpt]. *)
Theorem tokenizer_and_config_sources (w : World) (model_path : string)
    (model_base : option string) (model_name : string) (load_8bit load_4bit : bool)
    (device_map device : string) :
  (forall path use_fast out,
     In (Called (AutoTokenizer_from_pretrained path use_fast) out)
        (events (run w (load_pretrained_model model_path model_base model_name
                          load_8bit load_4bit device_map device))) ->
     contains "llava" (lower model_name) = true /\
     path = default model_path model_base /\
     (use_fast = true <->
      contains "mpt" (lower model_name) = true /\
      (contains "lora" (lower model_name) = true -> model_base = None))) /\
  (forall path truncation_side padding_side out,
     In (Called (T5TokenizerFast_from_pretrained path truncation_side padding_side) out)
        (events (run w (load_pretrained_model model_path model_base model_name
                          load_8bit load_4bit device_map device))) ->
     contains "llava" (lower model_name) = false /\
     model_base = None /\
     truncation_side = "right" /\ padding_side = "right" /\
     exists e, CLIP_T5_BASE_MODELS !! model_name = Some e /\ path = base e) /\
  (forall path trust_remote_code out,
     In (Called (AutoConfig_from_pretrained path trust_remote_code) out)
        (events (run w (load_pretrained_model model_path model_base model_name
                          load_8bit load_4bit device_map device))) ->
     path = model_path /\
     (trust_remote_code = true -> contains "mpt" (lower model_name) = true)).
Proof.
  split; [| split].
  - intros path use_fast out H.
    apply run_event_allowed in H as (before & after & Hev & [_ H]). exact H.
  - intros path truncation_side padding_side out H.
    apply run_event_allowed in H as (before & after & Hev & [_ H]). exact H.
  - intros path trust_remote_code out H.
    apply run_event_allowed in H as (before & after & Hev & [_ H]). exact H.
Qed.

Lemma tokenizer_and_config_sources_witness :
  contains "llava" (lower "clip-flant5-xl") = false /\
  @None string = None /\
  "right" = "right" /\ "right" = "right" /\
  exists e, CLIP_T5_BASE_MODELS !! "clip-flant5-xl" = Some e /\ "google/flan-t5-xl" = base e.
Proof.
  apply (proj1 (proj2 (tokenizer_and_config_sources (sample_world None false [])
                         "zhiqiulin/clip-flant5-xl" None "clip-flant5-xl"
                         false false "auto" "cuda"))
           "google/flan-t5-xl" "right" "right"
           (Returned {| tokenizer_source := "google/flan-t5-xl"; is_fast := true;
                        vocab_len := 32100%Z |})).
  vm_compute. repeat first [left; reflexivity | right].
Defined.

(** X9: the steps of lines 176-180.  The vision tower is asked to load only
    when it says it is not loaded; the tower and the projector are moved to
    the [device] argument, in bfloat16 when the name has a CLIP-T5 marker
    and in float16 otherwise. *)
Theorem towers_loaded_and_placed (w : World) (model_path : string)
    (model_base : option string) (model_name : string) (load_8bit load_4bit : bool)
    (device_map device : string) :
  (forall vt out,
     In (Called (vision_tower_load_model vt) out)
        (events (run w (load_pretrained_model model_path model_base model_name
                          load_8bit load_4bit device_map device))) ->
     is_loaded vt = false) /\
  (forall vt dev dt out,
     In (Called (vision_tower_to vt dev dt) out)
        (events (run w (load_pretrained_model model_path model_base model_name
                          load_8bit load_4bit device_map device))) ->
     dev = device /\ dt = (if use_t5_of model_name then bfloat16 else float16)) /\
  (forall p dt dev out,
     In (Called (mm_projector_to p dt dev) out)
        (events (run w (load_pretrained_model model_path model_base model_name
                          load_8bit load_4bit device_map device))) ->
     dev = device /\ dt = (if use_t5_of model_name then bfloat16 else float16)).
Proof.
  split; [| split].
  - intros vt out H.
    apply run_event_allowed in H as (before & after & Hev & [_ H]). exact H.
  - intros vt dev dt out H.
    apply run_event_allowed in H as (before & after & Hev & [_ H]).
    cbn [call_allowed] in H. destruct H as [-> ->]. split; [reflexivity |].
    by destruct (use_t5_of model_name).
  - intros p dt dev out H.
    apply run_event_allowed in H as (before & after & Hev & [_ H]).
    cbn [call_allowed] in H. destruct H as [-> ->]. split; [reflexivity |].
    by destruct (use_t5_of model_name).
Qed.

Lemma towers_loaded_and_placed_witness :
  "cuda:1" = "cuda:1" /\
  bfloat16 = (if use_t5_of "llava-clip-t5-xl" then bfloat16 else float16).
Proof.
  apply (proj1 (proj2 (towers_loaded_and_placed (sample_world None true [])
                         "liuhaotian/llava-clip-t5-xl" None "llava-clip-t5-xl"
                         false false "auto" "cuda:1"))
           {| is_loaded := true;
              image_processor :=
                Some {| image_processor_source := "openai/clip-vit-large-patch14" |} |}
           "cuda:1" bfloat16
           (Returned {| is_loaded := true;
                        image_processor :=
                          Some {| image_processor_source
                                  := "openai/clip-vit-large-patch14" |} |})).
  vm_compute. repeat first [left; reflexivity | right].
Defined.



(** ** What the loader returns, and when *)

(** What [finalizer] has done last when it returns: the tower was moved,
    then the projector, and the returned model holds both as the moves left
    them. *)
Lemma finalizer_placed (tokenizer : Tokenizer) (m : Model) (device : string)
    (dt : dtype) (use_t5 : bool) (w : World) (st st' : frame)
    (v : Tokenizer * Model * option ImageProcessor * Z * bool) :
  finalizer tokenizer m device dt use_t5 w st = (Returned v, st') ->
  exists vt0 vt p0 p hist,
    log st' = Called (mm_projector_to p0 dt device) (Returned p)
              :: Called (vision_tower_to vt0 device dt) (Returned vt) :: hist /\
    v = (tokenizer, set_towers (resized m (vocab_len tokenizer)) vt p,
         image_processor vt,
         match max_sequence_length (config m) with Some n => n | None => 2048%Z end,
         use_t5).
Proof.
  unfold finalizer, bind, call, ret, raise. cbn. intros H.
  destruct (w unit (log st) (resize_token_embeddings m (vocab_len tokenizer)))
    as [[] | e] eqn:E0; [| discriminate].
  destruct (vision_tower m) as [vt |]; [| discriminate].
  destruct (mm_projector m) as [p |].
  - destruct (is_loaded vt); cbn in H;
      repeat (ask_world_in H; cbn in H; try discriminate);
      injection H as <- <-; cbn [log]; eauto 10.
  - destruct (is_loaded vt); cbn in H;
      repeat (ask_world_in H; cbn in H; try discriminate).
Qed.

(** X1: the tuple of line 188, whenever the loader returns.  The last two
    things the run did were to move the vision tower and then the projector
    to [device]; the returned model holds the tower and the projector as
    those moves left them; the returned image processor is that tower's; and
    the returned flag says whether the name has a CLIP-T5 marker. *)
Theorem returned_tuple (w : World) (model_path : string)
    (model_base : option string) (model_name : string) (load_8bit load_4bit : bool)
    (device_map device : string)
    (tokenizer : Tokenizer) (m : Model) (ip : option ImageProcessor)
    (context_len : Z) (flag : bool) :
  result (run w (load_pretrained_model model_path model_base model_name
                   load_8bit load_4bit device_map device))
    = Returned (tokenizer, m, ip, context_len, flag) ->
  flag = use_t5_of model_name /\
  exists before vt0 vt p0 p,
    events (run w (load_pretrained_model model_path model_base model_name
                     load_8bit load_4bit device_map device))
    = (before
       ++ [Called (vision_tower_to vt0 device (dtype_of (use_t5_of model_name)))
                  (Returned vt);
           Called (mm_projector_to p0 (dtype_of (use_t5_of model_name)) device)
                  (Returned p)])%list /\
    vision_tower m = Some vt /\ mm_projector m = Some p /\
    ip = image_processor vt.
Proof.
  intros H. unfold result, events, trace in *.
  destruct (run w _) as [o st'] eqn:R. cbn [fst snd] in *. subst o.
  unfold run, load_pretrained_model in R.
  apply bind_returned in R as ([tok0 m0] & st1 & _ & R).
  apply finalizer_placed in R as (vt0 & vt & p0 & p & hist & Hlog & R).
  cbn in R. injection R as -> -> -> _ ->.
  split; [reflexivity |].
  exists (rev hist), vt0, vt, p0, p. rewrite Hlog. cbn [rev].
  rewrite <- app_assoc. auto.
Qed.

Lemma returned_tuple_witness :
  true = use_t5_of "clip-flant5-xxl" /\
  exists before vt0 vt p0 p,
    events (run (sample_world (Some 512%Z) false [])
              (load_pretrained_model "zhiqiulin/clip-flant5-xxl" None "clip-flant5-xxl"
                 false false "auto" "cuda"))
    = (before
       ++ [Called (vision_tower_to vt0 "cuda" (dtype_of (use_t5_of "clip-flant5-xxl")))
                  (Returned vt);
           Called (mm_projector_to p0 (dtype_of (use_t5_of "clip-flant5-xxl")) "cuda")
                  (Returned p)])%list /\
    vision_tower
      (set_towers (resized (sample_model (Some 512%Z)) 32100)
         {| is_loaded := true;
            image_processor :=
              Some {| image_processor_source := "openai/clip-vit-large-patch14" |} |}
         {| projector_placed := Some (bfloat16, "cuda") |}) = Some vt /\
    mm_projector
      (set_towers (resized (sample_model (Some 512%Z)) 32100)
         {| is_loaded := true;
            image_processor :=
              Some {| image_processor_source := "openai/clip-vit-large-patch14" |} |}
         {| projector_placed := Some (bfloat16, "cuda") |}) = Some p /\
    Some {| image_processor_source := "openai/clip-vit-large-patch14" |}
    = image_processor vt.
Proof.
  apply (returned_tuple (sample_world (Some 512%Z) false [])
           "zhiqiulin/clip-flant5-xxl" None "clip-flant5-xxl" false false "auto" "cuda"
           {| tokenizer_source := "google/flan-t5-xxl"; is_fast := true;
              vocab_len := 32100%Z |}
           (set_towers (resized (sample_model (Some 512%Z)) 32100)
              {| is_loaded := true;
                 image_processor :=
                   Some {| image_processor_source := "openai/clip-vit-large-patch14" |} |}
              {| projector_placed := Some (bfloat16, "cuda") |})
           (Some {| image_processor_source := "openai/clip-vit-large-patch14" |})
           512%Z true).
  vm_compute. reflexivity.
Defined.

(** X2: the loader returns only for a name with [llava], or for a name that
    is a key of the table whose entry is not a stage-1 entry, given without
    [model_base].  Every other invocation ends with an exception, whatever
    the libraries do. *)
Theorem returns_only_for (w : World) (model_path : string)
    (model_base : option string) (model_name : string) (load_8bit load_4bit : bool)
    (device_map device : string)
    (v : Tokenizer * Model * option ImageProcessor * Z * bool) :
  result (run w (load_pretrained_model model_path model_base model_name
                   load_8bit load_4bit device_map device)) = Returned v ->
  contains "llava" (lower model_name) = true \/
  (model_base = None /\
   exists e, CLIP_T5_BASE_MODELS !! model_name = Some e /\
             load_projector_only e = false).
Proof.
  destruct (contains "llava" (lower model_name)) eqn:Hllava; [auto |].
  intros H. right. revert H.
  unfold_loader. rewrite Hllava.
  generalize (dtype_of (use_t5_of model_name)). intros dt.
  destruct (use_t5_of model_name);
    [| exec; intros; discriminate].
  destruct model_base as [b |];
    [exec; intros; discriminate |].
  destruct (CLIP_T5_BASE_MODELS !! model_name) as [e |] eqn:He;
    [| exec; intros; discriminate].
  destruct (load_projector_only e) eqn:Hp.
  - exec; intros; discriminate.
  - intros _. eauto.
Qed.

Lemma returns_only_for_witness :
  contains "llava" (lower "clip-flant5-xxl") = true \/
  (@None string = None /\
   exists e, CLIP_T5_BASE_MODELS !! "clip-flant5-xxl" = Some e /\
             load_projector_only e = false).
Proof.
  assert (Hv : exists v,
             result (run (sample_world (Some 512%Z) false [])
                       (load_pretrained_model "zhiqiulin/clip-flant5-xxl" None
                          "clip-flant5-xxl" false false "auto" "cuda")) = Returned v)
    by (eexists; vm_compute; reflexivity).
  destruct Hv as [v Hv].
  exact (returns_only_for _ _ _ _ _ _ _ _ v Hv).
Defined.

(** X11: a name with a CLIP-T5 marker that is not a key of the table, given
    without [model_base], ends with [KeyError] on the name before any
    library is called: the family test is on the lower-cased name, the
    lookup of line 126 on the name as given. *)
Theorem clip_t5_name_not_in_table (w : World) (model_path model_name : string)
    (load_8bit load_4bit : bool) (device_map device : string) :
  use_t5_of model_name = true ->
  contains "llava" (lower model_name) = false ->
  CLIP_T5_BASE_MODELS !! model_name = None ->
  result (run w (load_pretrained_model model_path None model_name
                   load_8bit load_4bit device_map device))
    = Raised (KeyError model_name) /\
  events (run w (load_pretrained_model model_path None model_name
                   load_8bit load_4bit device_map device))
    = (if contains "lora" (lower model_name) then [Warned lora_warning] else []).
Proof.
  intros Ht5 Hllava Hentry.
  unfold_loader. rewrite Ht5, Hllava, Hentry.
  destruct (contains "lora" (lower model_name)); exec; split; reflexivity.
Qed.

Lemma clip_t5_name_not_in_table_witness :
  result (run (sample_world None false [])
            (load_pretrained_model "zhiqiulin/clip-flant5-xxl" None "CLIP-FlanT5-XXL"
               false false "auto" "cuda"))
    = Raised (KeyError "CLIP-FlanT5-XXL") /\
  events (run (sample_world None false [])
            (load_pretrained_model "zhiqiulin/clip-flant5-xxl" None "CLIP-FlanT5-XXL"
               false false "auto" "cuda"))
    = (if contains "lora" (lower "CLIP-FlanT5-XXL") then [Warned lora_warning] else []).
Proof.
  apply (clip_t5_name_not_in_table (sample_world None false [])
           "zhiqiulin/clip-flant5-xxl" "CLIP-FlanT5-XXL" false false "auto" "cuda");
    vm_compute; reflexivity.
Defined.

(** ** The projector path, lines 107-109 *)

(** Line 108: the comprehension keeps the keys and casts every tensor. *)
Lemma cast_characterised (dt : dtype) (d : StateDict) :
  (forall k, In k (PyDict.keys (PyDict.comprehension id (tensor_to dt) d)) <->
             In k (PyDict.keys d)) /\
  (forall k v, In (k, v) (PyDict.comprehension id (tensor_to dt) d) ->
               tensor_dtype v = dt /\
               exists v0, In (k, v0) d /\ tensor_id v = tensor_id v0).
Proof.
  split.
  - intros k. rewrite keys_comprehension. split.
    + intros (k0 & H & ->). exact H.
    + intros H. exists k. auto.
  - intros k v H. apply items_comprehension in H as (k0 & v0 & H & -> & ->).
    split; [reflexivity |]. exists v0. auto.
Qed.

(** X12: on the projector path (a name with [llava] and without [lora],
    [model_base] given), whenever [torch.load] has returned the projector
    weights, the very next thing the loader does is to call
    [load_state_dict] with those weights cast to the dtype of line 40 and
    [strict=False]; a run that returns has loaded [mm_projector.bin] from
    under [model_path] and merged it so; the cast keeps the keys and gives
    every tensor that dtype. *)
Theorem projector_weights_cast (w : World) (model_path model_base model_name : string)
    (load_8bit load_4bit : bool) (device_map device : string) :
  contains "llava" (lower model_name) = true ->
  contains "lora" (lower model_name) = false ->
  (forall ev loaded,
     In ev (events (run w (load_pretrained_model model_path (Some model_base)
                             model_name load_8bit load_4bit device_map device))) ->
     loaded_state ev = Some loaded ->
     exists m out,
       adjacent
         (events (run w (load_pretrained_model model_path (Some model_base)
                           model_name load_8bit load_4bit device_map device)))
         ev
         (Called (load_state_dict m
                    (PyDict.comprehension id
                       (tensor_to (dtype_of (use_t5_of model_name))) loaded)
                    false) out)) /\
  (forall v,
     result (run w (load_pretrained_model model_path (Some model_base)
                      model_name load_8bit load_4bit device_map device))
     = Returned v ->
     exists loaded m m',
       adjacent
         (events (run w (load_pretrained_model model_path (Some model_base)
                           model_name load_8bit load_4bit device_map device)))
         (Called (torch_load (path_join model_path "mm_projector.bin") "cpu")
                 (Returned loaded))
         (Called (load_state_dict m
                    (PyDict.comprehension id
                       (tensor_to (dtype_of (use_t5_of model_name))) loaded)
                    false) (Returned m'))) /\
  (forall loaded : StateDict,
     (forall k,
        In k (PyDict.keys
                (PyDict.comprehension id
                   (tensor_to (dtype_of (use_t5_of model_name))) loaded)) <->
        In k (PyDict.keys loaded)) /\
     (forall k v,
        In (k, v) (PyDict.comprehension id
                     (tensor_to (dtype_of (use_t5_of model_name))) loaded) ->
        tensor_dtype v = dtype_of (use_t5_of model_name) /\
        exists v0, In (k, v0) loaded /\ tensor_id v = tensor_id v0)).
Proof.
  intros Hllava Hlora.
  split; [| split; [| intros loaded; apply cast_characterised]].
  - unfold_loader. rewrite Hllava, Hlora.
    generalize (build_kwargs load_8bit load_4bit device_map
                  (dtype_of (use_t5_of model_name)))
               (dtype_of (use_t5_of model_name)).
    intros kwargs dt. exec;
      intros ev loaded Hin Hl; cbn [log snd rev app In] in *;
      repeat (destruct Hin as [Hin | Hin];
              [ subst ev; cbn [loaded_state] in Hl;
                first [ discriminate Hl
                      | injection Hl as <-; do 2 eexists; find_adjacent ]
              | ]);
      contradiction.
  - unfold_loader. rewrite Hllava, Hlora.
    generalize (build_kwargs load_8bit load_4bit device_map
                  (dtype_of (use_t5_of model_name)))
               (dtype_of (use_t5_of model_name)).
    intros kwargs dt. exec;
      intros ? Hres; cbn [log snd fst rev app] in *;
      first [ discriminate Hres | do 3 eexists; find_adjacent ].
Qed.

Lemma projector_weights_cast_witness :
  exists loaded m m',
    adjacent
      (events (run (sample_world None true sample_weights)
                 (load_pretrained_model "liuhaotian/llava-projector"
                    (Some "lmsys/vicuna-7b-v1.5") "llava-v1.5-7b"
                    false false "auto" "cuda")))
      (Called (torch_load (path_join "liuhaotian/llava-projector" "mm_projector.bin")
                 "cpu") (Returned loaded))
      (Called (load_state_dict m
                 (PyDict.comprehension id
                    (tensor_to (dtype_of (use_t5_of "llava-v1.5-7b"))) loaded)
                 false) (Returned m')).
Proof.
  assert (Hllava : contains "llava" (lower "llava-v1.5-7b") = true)
    by (vm_compute; reflexivity).
  assert (Hlora : contains "lora" (lower "llava-v1.5-7b") = false)
    by (vm_compute; reflexivity).
  assert (Hv : exists v,
             result (run (sample_world None true sample_weights)
                       (load_pretrained_model "liuhaotian/llava-projector"
                          (Some "lmsys/vicuna-7b-v1.5") "llava-v1.5-7b"
                          false false "auto" "cuda")) = Returned v)
    by (eexists; vm_compute; reflexivity).
  destruct Hv as [v Hv].
  exact (proj1 (proj2 (projector_weights_cast (sample_world None true sample_weights)
                         "liuhaotian/llava-projector" "lmsys/vicuna-7b-v1.5"
                         "llava-v1.5-7b" false false "auto" "cuda" Hllava Hlora))
           v Hv).
Defined.
